(** * Token usage estimation and token inventory paging

    A shallow embedding of [app/services/token_usage.py] and of the paging
    rule of the token inventory query, with the properties of the design
    document stated and proved over it.

    Conventions of the embedding:
    - a Python [str] is the list of its code points ([pystr]); a Python [int]
      is a [Z]; [//] by a positive constant is [Z.div];
    - Python checks no annotation, so every function takes values of the
      inductive [pyval]; floats and user objects are not part of it;
    - the builtins follow CPython with its default settings, among them the
      limit of 4300 digits on conversions between [int] and [str]; running
      out of memory or of recursion depth is outside the model;
    - a dict literal with fixed keys that a function returns is a record with
      the same field names;
    - an exception that reaches the caller is the [Raise] case of [result]. *)

From Stdlib Require Import String Ascii DecimalString.
From Stdlib Require Import ZArith NArith Bool List Permutation Lia.
Import ListNotations.
Open Scope Z_scope.
Set Warnings "-register-all".

(* ================================================================== *)
(** * The Python fragment the module relies on *)
(* ================================================================== *)

Module Py.

(** A string is the sequence of its code points. *)
Definition pystr := list N.

(** An ASCII literal, written with Rocq's string notation. *)
Definition lit (s : string) : pystr := map N_of_ascii (list_ascii_of_string s).

Definition str_eqb (a b : pystr) : bool :=
  if list_eq_dec N.eq_dec a b then true else false.

(** [len(s)] *)
Definition len (s : pystr) : Z := Z.of_nat (length s).

(** [sep.join(parts)] *)
Fixpoint join (sep : pystr) (parts : list pystr) : pystr :=
  match parts with
  | [] => []
  | [p] => p
  | p :: rest => p ++ sep ++ join sep rest
  end.

(** [ch.isspace()]: the code points [str.strip()] removes. *)
Definition isspace (ch : N) : bool :=
  ((0x09 <=? ch) && (ch <=? 0x0D) || (0x1C <=? ch) && (ch <=? 0x20)
   || (ch =? 0x85) || (ch =? 0xA0) || (ch =? 0x1680)
   || (0x2000 <=? ch) && (ch <=? 0x200A)
   || (ch =? 0x2028) || (ch =? 0x2029) || (ch =? 0x202F)
   || (ch =? 0x205F) || (ch =? 0x3000))%N.

Fixpoint lstrip (s : pystr) : pystr :=
  match s with
  | [] => []
  | ch :: s' => if isspace ch then lstrip s' else s
  end.

Definition rstrip (s : pystr) : pystr := rev (lstrip (rev s)).

(** [s.strip()] *)
Definition strip (s : pystr) : pystr := rstrip (lstrip s).

(** [s.startswith(sub)] *)
Fixpoint startswith (sub s : pystr) : bool :=
  match sub, s with
  | [], _ => true
  | _ :: _, [] => false
  | a :: sub', b :: s' => (a =? b)%N && startswith sub' s'
  end.

(** Index of the first occurrence of [sub] in [s], if any. *)
Fixpoint search (sub s : pystr) : option nat :=
  if startswith sub s then Some O
  else match s with
       | [] => None
       | _ :: s' => option_map S (search sub s')
       end.

(** Python's normalisation of a slice or search bound: a negative index
    counts from the end, and the result is clamped to [0, len]. *)
Definition clamp (n i : Z) : Z :=
  if i <? 0 then Z.max 0 (i + n) else Z.min i n.

(** [s.find(sub, start)]: the lowest index at or after [start] where [sub]
    occurs, [-1] when there is none. *)
Definition find (sub s : pystr) (start : Z) : Z :=
  let start := if start <? 0 then Z.max 0 (start + len s) else start in
  if len s <? start then -1
  else match search sub (skipn (Z.to_nat start) s) with
       | Some i => start + Z.of_nat i
       | None => -1
       end.

(** [s[lo:hi]]; an absent bound is [None]. *)
Definition slice (s : pystr) (lo hi : option Z) : pystr :=
  let l := match lo with Some i => clamp (len s) i | None => 0 end in
  let h := match hi with Some i => clamp (len s) i | None => len s end in
  firstn (Z.to_nat (h - l)) (skipn (Z.to_nat l) s).

(** Values of type [Any]. A dict has string keys and is kept as the list of
    its items; [dict_get] reads the first binding of a key. *)
Inductive pyval : Type :=
| PyNone
| PyBool (b : bool)
| PyInt (z : Z)
| PyStr (s : pystr)
| PyList (l : list pyval)
| PyDict (d : list (pystr * pyval)).

Definition pydict := list (pystr * pyval).

(** [d.get(key)] *)
Fixpoint dict_get (d : pydict) (key : pystr) : pyval :=
  match d with
  | [] => PyNone
  | (k, v) :: d' => if str_eqb k key then v else dict_get d' key
  end.

(** Truth value of [v] in a boolean context. *)
Definition truthy (v : pyval) : bool :=
  match v with
  | PyNone => false
  | PyBool b => b
  | PyInt z => negb (z =? 0)
  | PyStr s => match s with [] => false | _ => true end
  | PyList l => match l with [] => false | _ => true end
  | PyDict d => match d with [] => false | _ => true end
  end.

(** [a or b] *)
Definition py_or (a b : pyval) : pyval := if truthy a then a else b.

(** [v == "..."] against a string literal. *)
Definition eq_str (v : pyval) (s : pystr) : bool :=
  match v with
  | PyStr t => str_eqb t s
  | _ => false
  end.

(** Exceptions and results. *)
Inductive exn : Type := TypeError | ValueError | AttributeError.

Inductive result (A : Type) : Type :=
| Ok (a : A)
| Raise (e : exn).
Arguments Ok {A} a.
Arguments Raise {A} e.

Definition bind {A B : Type} (r : result A) (k : A -> result B) : result B :=
  match r with
  | Ok a => k a
  | Raise e => Raise e
  end.

Notation "x <- r ;; k" := (bind r (fun x => k))
  (at level 61, r at next level, right associativity).

(** A [for] loop over [l] whose body updates the state [s] and may raise;
    the first exception ends the loop. *)
Fixpoint for_each {S A : Type} (body : S -> A -> result S) (l : list A) (s : S)
    : result S :=
  match l with
  | [] => Ok s
  | x :: l' => s' <- body s x ;; for_each body l' s'
  end.

(** The values [for x in v] goes through: the elements of a list, the
    characters of a string, the keys of a dict. *)
Definition py_iter (v : pyval) : result (list pyval) :=
  match v with
  | PyList l => Ok l
  | PyStr s => Ok (map (fun ch => PyStr [ch]) s)
  | PyDict d => Ok (map (fun kv => PyStr (fst kv)) d)
  | PyNone | PyBool _ | PyInt _ => Raise TypeError
  end.

(** [v.get(key)]: only a dict has the method. *)
Definition py_get (v : pyval) (key : pystr) : result pyval :=
  match v with
  | PyDict d => Ok (dict_get d key)
  | _ => Raise AttributeError
  end.

(** [ord(v)]: the code point of a string of one character. *)
Definition py_ord (v : pyval) : result N :=
  match v with
  | PyStr [ch] => Ok ch
  | _ => Raise TypeError
  end.

(** The most digits a conversion between [int] and [str] accepts
    ([sys.int_info.default_max_str_digits]). *)
Definition MAX_STR_DIGITS : Z := 4300.

(** [z] has more than [MAX_STR_DIGITS] decimal digits. *)
Definition too_long (z : Z) : bool := 10 ^ MAX_STR_DIGITS <=? Z.abs z.

(** Decimal text of an integer, as [str(n)] prints it when it does. *)
Definition str_of_int (z : Z) : pystr := lit (NilZero.string_of_int (Z.to_int z)).

(** [v] is, or holds as an element or a dict value at any depth, an int
    that [str] and [repr] refuse to print. *)
Fixpoint has_long_int (v : pyval) : bool :=
  match v with
  | PyInt z => too_long z
  | PyList l => existsb has_long_int l
  | PyDict d => existsb (fun kv => has_long_int (snd kv)) d
  | PyNone | PyBool _ | PyStr _ => false
  end.

(** Printable ASCII and the white space of ASCII. *)
Definition plain (ch : N) : bool :=
  ((0x09 <=? ch) && (ch <=? 0x0D) || (0x20 <=? ch) && (ch <=? 0x7E))%N.

Definition ascii_blank (ch : N) : bool :=
  ((0x09 <=? ch) && (ch <=? 0x0D) || (ch =? 0x20))%N.

Fixpoint drop_blanks (s : pystr) : pystr :=
  match s with
  | [] => []
  | ch :: s' => if ascii_blank ch then drop_blanks s' else s
  end.

Definition digit_of (ch : N) : option Z :=
  if ((0x30 <=? ch) && (ch <=? 0x39))%N then Some (Z.of_N ch - 0x30) else None.

Fixpoint parse_digits (acc : Z) (after_digit : bool) (s : pystr) : option Z :=
  match s with
  | [] => if after_digit then Some acc else None
  | ch :: s' =>
      match digit_of ch with
      | Some d => parse_digits (10 * acc + d) true s'
      | None =>
          if ((ch =? 0x5F)%N && after_digit)%bool
          then parse_digits acc false s'
          else None
      end
  end.

(** Number of digit characters, leading zeros among them. *)
Definition count_digits (s : pystr) : Z :=
  Z.of_nat (length (filter (fun ch => match digit_of ch with
                                      | Some _ => true
                                      | None => false
                                      end) s)).

(** Digits with single underscores between them, and no more digits than
    the limit. *)
Definition parse_number (s : pystr) : option Z :=
  if MAX_STR_DIGITS <? count_digits s then None else parse_digits 0 false s.

(** What [int(s)] reads in a text of plain characters: optional blanks, an
    optional sign, a number, optional blanks. *)
Definition int_of_plain (s : pystr) : option Z :=
  let t := rev (drop_blanks (rev (drop_blanks s))) in
  match t with
  | ch :: t' =>
      if (ch =? 0x2D)%N then option_map Z.opp (parse_number t')
      else if (ch =? 0x2B)%N then parse_number t'
      else parse_number t
  | [] => None
  end.

Section Int.

(** What [int(s)] reads in a text with a character that is not plain (a
    digit or a blank of another script, a control character). It follows
    the Unicode tables of the interpreter and stays a parameter. *)
Variable int_other : pystr -> option Z.

Definition int_of_str (s : pystr) : option Z :=
  if forallb plain s then int_of_plain s else int_other s.

(** [int(v)] *)
Definition py_int (v : pyval) : result Z :=
  match v with
  | PyBool b => Ok (if b then 1 else 0)
  | PyInt z => Ok z
  | PyStr s => match int_of_str s with
               | Some z => Ok z
               | None => Raise ValueError
               end
  | PyNone | PyList _ | PyDict _ => Raise TypeError
  end.

End Int.

Section Str.

(** The text Python prints for a list or a dict when it prints one. The
    module only measures and trims it, so it stays a parameter. *)
Variable repr : pyval -> pystr.

(** [str(v)]: it raises on an int of too many digits, and on a list or a
    dict that holds one. *)
Definition py_str (v : pyval) : result pystr :=
  if has_long_int v then Raise ValueError
  else
    Ok match v with
       | PyNone => lit "None"
       | PyBool b => if b then lit "True" else lit "False"
       | PyInt z => str_of_int z
       | PyStr s => s
       | PyList _ | PyDict _ => repr v
       end.

End Str.

End Py.

(* ================================================================== *)
(** * app/services/token_usage.py *)
(* ================================================================== *)

Module TokenUsage.
Import Py.

(** The loop body of [_count_tokens], on the pair
    [(ascii_count, non_ascii)]. *)
Definition count_step (st : Z * Z) (ch : pyval) : result (Z * Z) :=
  let '(ascii_count, non_ascii) := st in
  c <- py_ord ch ;;
  if (c <=? 0x7F)%N
  then Ok (ascii_count + 1, non_ascii)
  else Ok (ascii_count, non_ascii + 1).

Definition _count_tokens (text : pyval) : result Z :=
  if negb (truthy text) then Ok 0
  else
    chars <- py_iter text ;;
    st <- for_each count_step chars (0, 0) ;;
    let '(ascii_count, non_ascii) := st in
    Ok ((ascii_count + 3) / 4 + non_ascii).

(** The one-character string of a line feed. *)
Definition NEWLINE : pystr := [0x0A%N].

Definition OPEN : pystr := lit "<think>".
Definition CLOSE : pystr := lit "</think>".

(** The [while True] loop of [_split_think] on its three variables; one unit
    of fuel per iteration, [None] when the fuel runs out before a [break]. *)
Fixpoint think_loop (fuel : nat) (reasoning_parts : list pystr)
    (output : pystr) (start : Z) : option (list pystr * pystr) :=
  match fuel with
  | O => None
  | S fuel' =>
      let s := find OPEN output start in
      if s <? 0 then Some (reasoning_parts, output)
      else
        let e := find CLOSE output (s + 7) in
        if e <? 0 then Some (reasoning_parts, output)
        else
          think_loop fuel'
            (reasoning_parts ++ [slice output (Some (s + 7)) (Some e)])
            (slice output None (Some s) ++ slice output (Some (e + 8)) None)
            s
  end.

(** [output.find] exists on a string only. Every iteration shortens
    [output], so [len(text) + 1] iterations are enough ([think_loop_total]
    below) and the [None] branch is never taken. *)
Definition _split_think (text : pyval) : result (pystr * pystr) :=
  if negb (truthy text) then Ok ([], [])
  else
    match text with
    | PyStr t =>
        match think_loop (S (length t)) [] t 0 with
        | Some (reasoning_parts, output) => Ok (join NEWLINE reasoning_parts, output)
        | None => Ok ([], t)
        end
    | _ => Raise AttributeError
    end.

(** The dict [estimate_prompt_tokens] returns. *)
Module Prompt.
Record t : Type := mk {
  text_tokens : Z;
  image_tokens : Z;
  prompt_tokens : Z
}.
End Prompt.

Module PromptDetails.
Record t : Type := mk {
  cached_tokens : Z;
  text_tokens : Z;
  audio_tokens : Z;
  image_tokens : Z
}.
End PromptDetails.

Module CompletionDetails.
Record t : Type := mk {
  text_tokens : Z;
  audio_tokens : Z;
  reasoning_tokens : Z
}.
End CompletionDetails.

Module Raw.
Record t : Type := mk {
  reasoning_tokens : Z;
  cached_tokens : Z;
  input_tokens : Z;
  output_tokens : Z
}.
End Raw.

(** The dict [build_chat_usage] returns. *)
Module ChatUsage.
Record t : Type := mk {
  prompt_tokens : Z;
  completion_tokens : Z;
  total_tokens : Z;
  prompt_tokens_details : PromptDetails.t;
  completion_tokens_details : CompletionDetails.t;
  _raw : Raw.t
}.
End ChatUsage.

Module InputDetails.
Record t : Type := mk {
  text_tokens : Z;
  image_tokens : Z
}.
End InputDetails.

(** The dict [build_image_usage] returns. *)
Module ImageUsage.
Record t : Type := mk {
  total_tokens : Z;
  input_tokens : Z;
  output_tokens : Z;
  input_tokens_details : InputDetails.t;
  _raw : Raw.t
}.
End ImageUsage.

Section Usage.

Variable repr : pyval -> pystr.

(** [if t.strip(): text_parts.append(t)] *)
Definition append_if_text (text_parts : list pystr) (t : pystr) : list pystr :=
  match strip t with
  | [] => text_parts
  | _ :: _ => text_parts ++ [t]
  end.

(** Body of the inner loop, over the items of a list content. *)
Definition item_step (text_parts : list pystr) (item : pyval)
    : result (list pystr) :=
  match item with
  | PyDict d =>
      if eq_str (dict_get d (lit "type")) (lit "text")
      then
        t <- py_str repr (py_or (dict_get d (lit "text")) (PyStr [])) ;;
        Ok (append_if_text text_parts t)
      else Ok text_parts
  | _ => Ok text_parts
  end.

(** Body of the outer loop, over the messages. *)
Definition msg_step (text_parts : list pystr) (msg : pyval) : result (list pystr) :=
  content <- py_get msg (lit "content") ;;
  match content with
  | PyList items => for_each item_step items text_parts
  | _ =>
      t <- py_str repr (py_or content (PyStr [])) ;;
      Ok (append_if_text text_parts t)
  end.

Definition estimate_prompt_tokens (messages : pyval) : result Prompt.t :=
  let image_tokens := 0 in
  msgs <- py_iter (py_or messages (PyList [])) ;;
  text_parts <- for_each msg_step msgs [] ;;
  text_tokens <- _count_tokens (PyStr (join NEWLINE text_parts)) ;;
  Ok {| Prompt.text_tokens := text_tokens;
        Prompt.image_tokens := image_tokens;
        Prompt.prompt_tokens := text_tokens + image_tokens |}.

Definition build_chat_usage (messages completion_text : pyval)
    : result ChatUsage.t :=
  prompt <- estimate_prompt_tokens messages ;;
  split <- _split_think (py_or completion_text (PyStr [])) ;;
  let '(reasoning_text, output_text) := split in
  completion_text_tokens <- _count_tokens (PyStr output_text) ;;
  reasoning_tokens <- _count_tokens (PyStr reasoning_text) ;;
  let output_tokens := completion_text_tokens + reasoning_tokens in
  let input_tokens := Prompt.prompt_tokens prompt in
  let total_tokens := input_tokens + output_tokens in
  Ok {| ChatUsage.prompt_tokens := input_tokens;
        ChatUsage.completion_tokens := output_tokens;
        ChatUsage.total_tokens := total_tokens;
        ChatUsage.prompt_tokens_details :=
          {| PromptDetails.cached_tokens := 0;
             PromptDetails.text_tokens := Prompt.text_tokens prompt;
             PromptDetails.audio_tokens := 0;
             PromptDetails.image_tokens := Prompt.image_tokens prompt |};
        ChatUsage.completion_tokens_details :=
          {| CompletionDetails.text_tokens := completion_text_tokens;
             CompletionDetails.audio_tokens := 0;
             CompletionDetails.reasoning_tokens := reasoning_tokens |};
        ChatUsage._raw :=
          {| Raw.reasoning_tokens := reasoning_tokens;
             Raw.cached_tokens := 0;
             Raw.input_tokens := input_tokens;
             Raw.output_tokens := output_tokens |} |}.

(** What [int] reads in a text that is not plain, see [int_of_str]. *)
Variable int_other : pystr -> option Z.

(** [success_count] is [None] when the caller leaves the argument out, and
    then takes its default [1]. *)
Definition build_image_usage (prompt : pyval) (success_count : option pyval)
    : result ImageUsage.t :=
  let success_count := match success_count with
                       | None => PyInt 1
                       | Some v => v
                       end in
  t <- py_str repr (py_or prompt (PyStr [])) ;;
  text_tokens <- _count_tokens (PyStr t) ;;
  n <- py_int int_other (py_or success_count (PyInt 1)) ;;
  let success := Z.max 1 n in
  let total_tokens := text_tokens * success in
  Ok {| ImageUsage.total_tokens := total_tokens;
        ImageUsage.input_tokens := total_tokens;
        ImageUsage.output_tokens := 0;
        ImageUsage.input_tokens_details :=
          {| InputDetails.text_tokens := text_tokens;
             InputDetails.image_tokens := 0 |};
        ImageUsage._raw :=
          {| Raw.reasoning_tokens := 0;
             Raw.cached_tokens := 0;
             Raw.input_tokens := total_tokens;
             Raw.output_tokens := 0 |} |}.

End Usage.

End TokenUsage.

(* ================================================================== *)
(** * The paging step of the token inventory query *)
(* ================================================================== *)

Module Inventory.

(** Modelled from the spec: the [per_page] parameter of the query, a number
    or the sentinel the API writes as the string ["all"], and the
    [QueryResult] of section 3. *)
Inductive per_page_t : Type :=
| PerPage (n : Z)
| All.

Record QueryResult (A : Type) : Type := mkQueryResult {
  items : list A;
  total : Z;
  page : Z;
  per_page : per_page_t;
  pages : Z
}.
Arguments items {A} _.
Arguments total {A} _.
Arguments page {A} _.
Arguments per_page {A} _.
Arguments pages {A} _.

Definition DEFAULT_PAGE : Z := 1.
Definition DEFAULT_PER_PAGE : per_page_t := PerPage 30.

(** Modelled from the spec: step 7 (Paginate) of the token inventory query
    and its defaults. The query itself, [get_tokens_api] of
    [app/api/v1/admin.py], is not among the sources; only its tests are.
    [filtered] is the sequence left by steps 1 to 5, and an argument the
    caller leaves out is [None]. With a number, [page] is clamped to at
    least 1, [pages] is the ceiling of [total / per_page] with a floor of 1,
    and the items are the window from [(page-1)*per_page] up to
    [page*per_page]; with the sentinel nothing is cut and [pages] is 1. *)
Definition paginate {A : Type} (filtered : list A)
    (page : option Z) (per_page : option per_page_t) : QueryResult A :=
  let total := Z.of_nat (length filtered) in
  let page := match page with Some p => p | None => DEFAULT_PAGE end in
  let per_page := match per_page with Some n => n | None => DEFAULT_PER_PAGE end in
  match per_page with
  | All =>
      {| items := filtered; total := total; page := page;
         per_page := All; pages := 1 |}
  | PerPage n =>
      let page := Z.max 1 page in
      let pages := Z.max 1 ((total + n - 1) / n) in
      let lo := (page - 1) * n in
      let hi := page * n in
      {| items := firstn (Z.to_nat (hi - lo)) (skipn (Z.to_nat lo) filtered);
         total := total; page := page;
         per_page := PerPage n; pages := pages |}
  end.

End Inventory.

(* ================================================================== *)
(** * The design document's wording, as definitions to compare with *)
(* ================================================================== *)

Module Design.
Import Py TokenUsage.

(** Number of characters with code point at most 0x7F, and above it. *)
Definition ascii_count (s : pystr) : Z :=
  Z.of_nat (length (filter (fun ch => (ch <=? 0x7F)%N) s)).

Definition non_ascii_count (s : pystr) : Z :=
  Z.of_nat (length (filter (fun ch => (0x7F <? ch)%N) s)).

(** [q] is the ceiling of [a / d]: the least integer with [a <= d * q]. *)
Definition is_ceil (q a d : Z) : Prop := d * (q - 1) < a <= d * q.

(** [sub] does not occur in [s]. *)
Definition no_occ (sub s : pystr) : Prop :=
  forall a b, s <> a ++ sub ++ b.

(** The first occurrence of [sub] in [s] has [a] before it and [b] after. *)
Definition first_occ (sub s a b : pystr) : Prop :=
  s = a ++ sub ++ b /\
  forall a' b', s = a' ++ sub ++ b' -> (length a <= length a')%nat.

(** [think_spans rest parts visible]: scanning [rest] from its start takes
    out the reasoning segments [parts], left to right, and leaves [visible].
    A pair is an opening marker and the nearest closing marker after it;
    what precedes the pair is kept, the pair and its body are removed, and
    the scan goes on in what follows the pair. Without an opening marker,
    or with one that no closing marker follows, the rest stays as it is. *)
Inductive think_spans : pystr -> list pystr -> pystr -> Prop :=
| spans_no_open rest :
    no_occ OPEN rest ->
    think_spans rest [] rest
| spans_no_close rest a b :
    first_occ OPEN rest a b ->
    no_occ CLOSE b ->
    think_spans rest [] rest
| spans_pair rest a b body post parts visible :
    first_occ OPEN rest a b ->
    first_occ CLOSE b body post ->
    think_spans post parts visible ->
    think_spans rest (body :: parts) (a ++ visible).

(** A text with [k] reasoning spans: each element of [spans] is the visible
    text before a span and the span's body; [tail] follows the last span. *)
Fixpoint assemble (spans : list (pystr * pystr)) (tail : pystr) : pystr :=
  match spans with
  | [] => tail
  | (v, r) :: spans' => v ++ OPEN ++ r ++ CLOSE ++ assemble spans' tail
  end.

(** The spans are the text's own: no opening marker in the visible text
    before a span, no closing marker inside a body, and no further pair of
    markers after the last span. *)
Definition well_formed (spans : list (pystr * pystr)) (tail : pystr) : Prop :=
  Forall (fun vr => no_occ OPEN (fst vr) /\ no_occ CLOSE (snd vr)) spans /\
  forall a b c, tail <> a ++ OPEN ++ b ++ CLOSE ++ c.

(** No span starts where the one before it ends. *)
Definition non_adjacent (spans : list (pystr * pystr)) : Prop :=
  match spans with
  | [] => True
  | _ :: spans' => Forall (fun vr => fst vr <> []) spans'
  end.

(** Sum of the lengths of the bodies. *)
Definition bodies_len (spans : list (pystr * pystr)) : Z :=
  fold_right (fun vr acc => len (snd vr) + acc) 0 spans.

(** Sum of a measure over a list of strings. *)
Definition sum_of (f : pystr -> Z) (l : list pystr) : Z :=
  fold_right (fun p acc => f p + acc) 0 l.

(** The estimate for a string: a quarter of its ASCII characters, rounded
    up, plus the others. *)
Definition estimate (s : pystr) : Z :=
  (ascii_count s + 3) / 4 + non_ascii_count s.

(** A part that the extractor reads: a dict tagged [type == "text"]. *)
Definition is_text_part (item : pyval) : bool :=
  match item with
  | PyDict d => eq_str (dict_get d (lit "type")) (lit "text")
  | _ => false
  end.

(** Arguments of the annotated types. A prompt is a string or [None]. *)
Definition text_arg (p : option pystr) : pyval :=
  match p with
  | Some s => PyStr s
  | None => PyNone
  end.

(** Messages are a list of dicts, or [None]. *)
Definition messages_arg (m : option (list pydict)) : pyval :=
  match m with
  | Some l => PyList (map PyDict l)
  | None => PyNone
  end.

(** A success count is left out, [None], a bool or an int. *)
Inductive count_arg : Type :=
| CountMissing
| CountNone
| CountBool (b : bool)
| CountInt (z : Z).

Definition count_val (c : count_arg) : option pyval :=
  match c with
  | CountMissing => None
  | CountNone => Some PyNone
  | CountBool b => Some (PyBool b)
  | CountInt z => Some (PyInt z)
  end.

(** The number a count stands for; an absent one stands for 1. *)
Definition count_num (c : count_arg) : Z :=
  match c with
  | CountMissing | CountNone => 1
  | CountBool b => if b then 1 else 0
  | CountInt z => z
  end.

(** Stand-in for [repr] in examples that print no list and no dict. *)
Definition no_repr : pyval -> pystr := fun _ => [].

(** Stand-in for [int_other] in examples whose texts are plain. *)
Definition no_int_other : pystr -> option Z := fun _ => None.

(** A list of results in one, the first exception winning. *)
Fixpoint collect {A : Type} (f : A -> result (list pystr)) (l : list A)
    : result (list pystr) :=
  match l with
  | [] => Ok []
  | x :: l' => a <- f x ;; b <- collect f l' ;; Ok (a ++ b)
  end.

Section Fragments.

Variable repr : pyval -> pystr.

(** A text counts when something is left of it after trimming. *)
Definition kept (t : pystr) : list pystr :=
  match strip t with
  | [] => []
  | _ :: _ => [t]
  end.

(** A value read as text: its string, or nothing for a false value. *)
Definition text_of (v : pyval) : result (list pystr) :=
  t <- py_str repr (py_or v (PyStr [])) ;; Ok (kept t).

(** The text of a part tagged [type == "text"]. *)
Definition part_texts (item : pyval) : result (list pystr) :=
  match item with
  | PyDict d =>
      if eq_str (dict_get d (lit "type")) (lit "text")
      then text_of (dict_get d (lit "text"))
      else Ok []
  | _ => Ok []
  end.

(** The fragments of one message: of its parts when the content is
    structured, the content as a string otherwise. *)
Definition message_texts (msg : pydict) : result (list pystr) :=
  match dict_get msg (lit "content") with
  | PyList parts => collect part_texts parts
  | content => text_of content
  end.

(** The fragments of the messages, in their order; an exception when
    [str] raises on one of the values to collect. *)
Definition fragments (messages : list pydict) : result (list pystr) :=
  collect message_texts messages.

End Fragments.

End Design.

(* ================================================================== *)
(** * Properties *)
(* ================================================================== *)

Import Py TokenUsage Design.

(** ** The tokenizer heuristic *)

Lemma count_step_fold (s : pystr) (a n : Z) :
  for_each count_step (map (fun ch => PyStr [ch]) s) (a, n)
  = Ok (a + ascii_count s, n + non_ascii_count s).
Proof.
  revert a n.
  induction s as [|ch s IH]; intros a n.
  - unfold ascii_count, non_ascii_count. simpl. do 2 f_equal; lia.
  - cbn [map for_each count_step py_ord bind].
    unfold ascii_count, non_ascii_count in *. cbn [filter].
    rewrite N.ltb_antisym.
    destruct (ch <=? 127)%N; cbn [bind negb length]; rewrite IH;
      do 2 f_equal; lia.
Qed.

Lemma ascii_count_nonneg (s : pystr) : 0 <= ascii_count s.
Proof. unfold ascii_count. lia. Qed.

Lemma non_ascii_count_nonneg (s : pystr) : 0 <= non_ascii_count s.
Proof. unfold non_ascii_count. lia. Qed.

Lemma count_split (s : pystr) : ascii_count s + non_ascii_count s = len s.
Proof.
  unfold ascii_count, non_ascii_count, len.
  induction s as [|ch s IH]; [reflexivity|].
  cbn [filter]. rewrite N.ltb_antisym.
  destruct (ch <=? 127)%N; cbn [negb length]; lia.
Qed.

(** On a string the count is a number, never an exception. *)
Lemma count_tokens_str (s : pystr) :
  _count_tokens (PyStr s) = Ok ((ascii_count s + 3) / 4 + non_ascii_count s).
Proof.
  unfold _count_tokens.
  destruct s as [|ch s]; [reflexivity|].
  cbn [truthy negb py_iter bind].
  rewrite count_step_fold. reflexivity.
Qed.

Lemma ceil_quarter (a : Z) : is_ceil ((a + 3) / 4) a 4.
Proof.
  unfold is_ceil.
  pose proof (Z.div_mod (a + 3) 4 ltac:(lia)) as E.
  pose proof (Z.mod_pos_bound (a + 3) 4 ltac:(lia)) as B.
  lia.
Qed.

(** C1. For every string [s], [_count_tokens(s)] is [ceil(a/4) + n] with
    [a] the number of characters of code point at most 0x7F and [n] the
    number of the others; the empty string and [None] give 0. *)
Theorem count_tokens_formula :
  (forall s : pystr,
      exists q, is_ceil q (ascii_count s) 4 /\
                _count_tokens (PyStr s) = Ok (q + non_ascii_count s)) /\
  _count_tokens (PyStr []) = Ok 0 /\
  _count_tokens PyNone = Ok 0.
Proof.
  split; [|split; reflexivity].
  intros s. exists ((ascii_count s + 3) / 4). split.
  - apply ceil_quarter.
  - apply count_tokens_str.
Qed.

Lemma count_tokens_pos (s : pystr) :
  s <> [] -> exists k, _count_tokens (PyStr s) = Ok k /\ 1 <= k.
Proof.
  intros Hs. rewrite count_tokens_str. eexists. split; [reflexivity|].
  pose proof (ceil_quarter (ascii_count s)) as [Hlo Hhi].
  pose proof (ascii_count_nonneg s). pose proof (non_ascii_count_nonneg s).
  pose proof (count_split s) as Hsum.
  assert (1 <= len s) by (unfold len; destruct s; [congruence | simpl; lia]).
  lia.
Qed.

(** C10. [_count_tokens(s) == 0] exactly when [s] is empty or [None]; every
    other string, one of blanks only included, costs at least one token. *)
Theorem count_tokens_zero_iff (text : option pystr) :
  (_count_tokens (text_arg text) = Ok 0 <-> text = None \/ text = Some []) /\
  (forall s, text = Some s -> s <> [] ->
             exists k, _count_tokens (text_arg text) = Ok k /\ 1 <= k).
Proof.
  split.
  - split.
    + intros H0. destruct text as [s|]; [|now left].
      destruct s as [|ch s]; [now right|].
      destruct (count_tokens_pos (ch :: s) ltac:(discriminate)) as (k & E & Hk).
      cbn [text_arg] in H0. rewrite E in H0. injection H0 as ->. lia.
    + intros [-> | ->]; reflexivity.
  - intros s -> Hs. now apply count_tokens_pos.
Qed.

(** A prompt of two blanks and a line feed is charged one token. *)
Lemma count_tokens_blank_witness :
  exists k, _count_tokens (PyStr [0x20; 0x20; 0x0A]%N) = Ok k /\ 1 <= k.
Proof.
  apply (proj2 (count_tokens_zero_iff (Some [0x20; 0x20; 0x0A]%N))
           [0x20; 0x20; 0x0A]%N eq_refl).
  discriminate.
Defined.

Example count_tokens_ascii5 : _count_tokens (PyStr (lit "hello")) = Ok 2.
Proof. reflexivity. Qed.

Example count_tokens_mixed :
  _count_tokens (PyStr (lit "hi " ++ [0x4F60; 0x597D]%N)) = Ok 3.
Proof. reflexivity. Qed.

(** A string of ASCII characters only costs a quarter of its length,
    rounded up; one with none costs its length. *)
Lemma count_tokens_ascii_only (s : pystr) :
  Forall (fun ch => (ch <= 0x7F)%N) s ->
  exists q, is_ceil q (len s) 4 /\ _count_tokens (PyStr s) = Ok q.
Proof.
  intros H.
  assert (non_ascii_count s = 0) as Hn.
  { unfold non_ascii_count.
    induction H as [|ch s Hch _ IH]; [reflexivity|].
    cbn [filter]. apply N.ltb_ge in Hch. now rewrite Hch. }
  pose proof (count_split s) as Hsum.
  exists ((ascii_count s + 3) / 4). split.
  - replace (len s) with (ascii_count s) by lia. apply ceil_quarter.
  - rewrite count_tokens_str, Hn. f_equal. lia.
Qed.

Lemma count_tokens_non_ascii_only (s : pystr) :
  Forall (fun ch => (0x7F < ch)%N) s ->
  _count_tokens (PyStr s) = Ok (len s).
Proof.
  intros H.
  assert (ascii_count s = 0) as Ha.
  { unfold ascii_count.
    induction H as [|ch s Hch _ IH]; [reflexivity|].
    cbn [filter]. apply N.leb_gt in Hch. now rewrite Hch. }
  pose proof (count_split s) as Hsum.
  rewrite count_tokens_str, Ha. f_equal.
  change ((0 + 3) / 4) with 0. lia.
Qed.

(** Outside its annotation the function can raise: an int has no
    characters to go through. *)
Example count_tokens_int : _count_tokens (PyInt 5) = Raise TypeError.
Proof. reflexivity. Qed.

(** ** Searching and slicing *)

Lemma startswith_app (sub b : pystr) : startswith sub (sub ++ b) = true.
Proof.
  induction sub as [|c sub IH]; [reflexivity|].
  simpl. now rewrite N.eqb_refl, IH.
Qed.

Lemma startswith_inv (sub s : pystr) :
  startswith sub s = true -> exists b, s = sub ++ b.
Proof.
  revert s. induction sub as [|c sub IH]; intros s H.
  - now exists s.
  - destruct s as [|d s]; [discriminate|].
    simpl in H. apply andb_prop in H as [Hc Hs].
    apply N.eqb_eq in Hc. subst d.
    destruct (IH _ Hs) as [b ->]. now exists b.
Qed.

Lemma search_some (sub s : pystr) (i : nat) :
  search sub s = Some i ->
  exists a b, first_occ sub s a b /\ length a = i.
Proof.
  revert i. induction s as [|c s IH]; intros i H.
  - simpl in H. destruct (startswith sub []) eqn:E; [|discriminate].
    injection H as <-. apply startswith_inv in E as [b E].
    exists [], b. split; [|reflexivity]. split; [exact E|]. intros; simpl; lia.
  - simpl in H. destruct (startswith sub (c :: s)) eqn:E.
    + injection H as <-. apply startswith_inv in E as [b E].
      exists [], b. split; [|reflexivity]. split; [exact E|]. intros; simpl; lia.
    + destruct (search sub s) as [j|] eqn:Ej; [|discriminate].
      simpl in H. injection H as <-.
      destruct (IH j eq_refl) as (a & b & [Hs Hmin] & Hlen).
      exists (c :: a), b. split; [|simpl; now rewrite Hlen].
      split; [simpl; now rewrite Hs|].
      intros a' b' Ha'. destruct a' as [|c' a'].
      * simpl in Ha'. rewrite Ha', startswith_app in E. discriminate.
      * simpl in Ha'. injection Ha' as _ Ha'.
        specialize (Hmin _ _ Ha'). simpl. lia.
Qed.

Lemma search_none (sub s : pystr) : search sub s = None -> no_occ sub s.
Proof.
  induction s as [|c s IH]; intros H a b Hs.
  - simpl in H. destruct (startswith sub []) eqn:E; [discriminate|].
    destruct a; [|discriminate]. simpl in Hs.
    rewrite Hs, startswith_app in E. discriminate.
  - simpl in H. destruct (startswith sub (c :: s)) eqn:E; [discriminate|].
    destruct (search sub s) eqn:Ej; [discriminate|].
    destruct a as [|c' a].
    + simpl in Hs. rewrite Hs, startswith_app in E. discriminate.
    + simpl in Hs. injection Hs as _ Hs. exact (IH eq_refl _ _ Hs).
Qed.

Lemma app_same_length {A : Type} (a a' b b' : list A) :
  a ++ b = a' ++ b' -> length a = length a' -> a = a' /\ b = b'.
Proof.
  revert a'. induction a as [|x a IH]; intros [|x' a'] H L; try discriminate.
  - now split.
  - simpl in H, L. injection H as -> H. injection L as L.
    destruct (IH _ H L) as [-> ->]. now split.
Qed.

Lemma first_occ_unique (sub s a b a' b' : pystr) :
  first_occ sub s a b -> first_occ sub s a' b' -> a = a' /\ b = b'.
Proof.
  intros [H1 M1] [H2 M2].
  pose proof (M1 _ _ H2). pose proof (M2 _ _ H1).
  rewrite H1 in H2.
  destruct (app_same_length _ _ _ _ H2 ltac:(lia)) as [-> Hb].
  split; [reflexivity|]. now apply app_inv_head in Hb.
Qed.

Lemma search_first_occ (sub s a b : pystr) :
  first_occ sub s a b -> search sub s = Some (length a).
Proof.
  intros H. destruct (search sub s) as [i|] eqn:E.
  - apply search_some in E as (a' & b' & H' & <-).
    destruct (first_occ_unique _ _ _ _ _ _ H H') as [-> _]. reflexivity.
  - apply search_none in E. destruct H as [H _]. now apply E in H.
Qed.

Lemma search_no_occ (sub s : pystr) : no_occ sub s -> search sub s = None.
Proof.
  intros H. destruct (search sub s) as [i|] eqn:E; [|reflexivity].
  apply search_some in E as (a & b & [Hs _] & _). now apply H in Hs.
Qed.

Lemma len_app (a b : pystr) : len (a ++ b) = len a + len b.
Proof. unfold len. rewrite length_app. lia. Qed.

Lemma len_nonneg (s : pystr) : 0 <= len s.
Proof. unfold len. lia. Qed.

Lemma len_OPEN : len OPEN = 7.
Proof. reflexivity. Qed.

Lemma len_CLOSE : len CLOSE = 8.
Proof. reflexivity. Qed.

Lemma skipn_len (a b : pystr) : skipn (Z.to_nat (len a)) (a ++ b) = b.
Proof.
  unfold len. rewrite Nat2Z.id, skipn_app, skipn_all, Nat.sub_diag.
  reflexivity.
Qed.

Lemma firstn_len (a b : pystr) : firstn (Z.to_nat (len a)) (a ++ b) = a.
Proof.
  unfold len. rewrite Nat2Z.id, firstn_app, firstn_all, Nat.sub_diag.
  simpl. apply app_nil_r.
Qed.

Lemma clamp_inside (n i : Z) : 0 <= i <= n -> clamp n i = i.
Proof.
  intros H. unfold clamp.
  destruct (i <? 0) eqn:E; [apply Z.ltb_lt in E|]; lia.
Qed.

(** Searching from the end of a prefix is searching what follows it. *)
Lemma find_after (sub pre rest : pystr) :
  find sub (pre ++ rest) (len pre) =
  match search sub rest with
  | Some i => len pre + Z.of_nat i
  | None => -1
  end.
Proof.
  unfold find.
  pose proof (len_nonneg pre). pose proof (len_nonneg rest).
  destruct (len pre <? 0) eqn:E; [apply Z.ltb_lt in E; lia|].
  rewrite len_app.
  destruct (len pre + len rest <? len pre) eqn:E'; [apply Z.ltb_lt in E'; lia|].
  now rewrite skipn_len.
Qed.

Lemma slice_upto (a b : pystr) : slice (a ++ b) None (Some (len a)) = a.
Proof.
  unfold slice.
  pose proof (len_nonneg a). pose proof (len_nonneg b).
  rewrite clamp_inside by (rewrite len_app; lia).
  rewrite Z.sub_0_r. simpl skipn. apply firstn_len.
Qed.

Lemma slice_from (a b : pystr) : slice (a ++ b) (Some (len a)) None = b.
Proof.
  unfold slice.
  pose proof (len_nonneg a). pose proof (len_nonneg b).
  rewrite clamp_inside by (rewrite len_app; lia).
  rewrite skipn_len, len_app.
  replace (len a + len b - len a) with (len b) by lia.
  unfold len. rewrite Nat2Z.id. apply firstn_all.
Qed.

Lemma slice_mid (a b c : pystr) :
  slice (a ++ b ++ c) (Some (len a)) (Some (len a + len b)) = b.
Proof.
  unfold slice.
  pose proof (len_nonneg a). pose proof (len_nonneg b).
  pose proof (len_nonneg c).
  rewrite !clamp_inside by (rewrite !len_app; lia).
  rewrite skipn_len.
  replace (len a + len b - len a) with (len b) by lia.
  apply firstn_len.
Qed.

(** ** The reasoning splitter *)

(** One iteration that finds a pair. *)
Lemma think_loop_pair (fuel : nat) (acc : list pystr)
    (pre a body post : pystr) :
  first_occ OPEN (a ++ OPEN ++ body ++ CLOSE ++ post) a (body ++ CLOSE ++ post) ->
  first_occ CLOSE (body ++ CLOSE ++ post) body post ->
  think_loop (S fuel) acc (pre ++ a ++ OPEN ++ body ++ CLOSE ++ post) (len pre) =
  think_loop fuel (acc ++ [body]) ((pre ++ a) ++ post) (len (pre ++ a)).
Proof.
  intros HO HC.
  pose proof (len_nonneg pre). pose proof (len_nonneg a).
  pose proof (len_nonneg body).
  cbn [think_loop].
  rewrite find_after, (search_first_occ _ _ _ _ HO).
  fold (len a).
  destruct (len pre + len a <? 0) eqn:E; [apply Z.ltb_lt in E; lia|].
  replace (pre ++ a ++ OPEN ++ body ++ CLOSE ++ post)
    with ((pre ++ a ++ OPEN) ++ body ++ CLOSE ++ post)
    by (now rewrite <- !app_assoc).
  replace (len pre + len a + 7) with (len (pre ++ a ++ OPEN))
    by (rewrite !len_app, len_OPEN; lia).
  rewrite find_after, (search_first_occ _ _ _ _ HC).
  fold (len body).
  destruct (len (pre ++ a ++ OPEN) + len body <? 0) eqn:E';
    [apply Z.ltb_lt in E'; pose proof (len_nonneg (pre ++ a ++ OPEN)); lia|].
  rewrite slice_mid.
  replace ((pre ++ a ++ OPEN) ++ body ++ CLOSE ++ post)
    with ((pre ++ a) ++ (OPEN ++ body ++ CLOSE) ++ post)
    by (now rewrite <- !app_assoc).
  replace (len pre + len a) with (len (pre ++ a)) by (now rewrite len_app).
  rewrite slice_upto.
  replace ((pre ++ a) ++ (OPEN ++ body ++ CLOSE) ++ post)
    with (((pre ++ a) ++ OPEN ++ body ++ CLOSE) ++ post)
    by (now rewrite <- !app_assoc).
  replace (len (pre ++ a ++ OPEN) + len body + 8)
    with (len ((pre ++ a) ++ OPEN ++ body ++ CLOSE))
    by (rewrite !len_app, len_OPEN, len_CLOSE; lia).
  rewrite slice_from.
  reflexivity.
Qed.

(** The loop computes what [think_spans] describes, whenever the fuel
    exceeds the length of the text still to scan. *)
Lemma think_loop_spans (rest : pystr) (parts : list pystr) (visible : pystr) :
  think_spans rest parts visible ->
  forall (fuel : nat) (acc : list pystr) (pre : pystr),
    (length rest < fuel)%nat ->
    think_loop fuel acc (pre ++ rest) (len pre) = Some (acc ++ parts, pre ++ visible).
Proof.
  induction 1 as [rest Hno | rest a b HO Hno
                 | rest a b body post parts visible HO HC Hrec IH];
    intros fuel acc pre Hfuel;
    (destruct fuel as [|fuel]; [lia|]).
  - cbn [think_loop].
    rewrite find_after, (search_no_occ _ _ Hno). cbn.
    now rewrite app_nil_r.
  - pose proof (len_nonneg pre). pose proof (len_nonneg a).
    pose proof HO as [Hrest _].
    cbn [think_loop].
    rewrite find_after, (search_first_occ _ _ _ _ HO). fold (len a).
    destruct (len pre + len a <? 0) eqn:E; [apply Z.ltb_lt in E; lia|].
    rewrite Hrest at 1.
    replace (pre ++ a ++ OPEN ++ b) with ((pre ++ a ++ OPEN) ++ b)
      by (now rewrite <- !app_assoc).
    replace (len pre + len a + 7) with (len (pre ++ a ++ OPEN))
      by (rewrite !len_app, len_OPEN; lia).
    rewrite find_after, (search_no_occ _ _ Hno). cbn.
    now rewrite app_nil_r.
  - pose proof HO as [Hrest _]. pose proof HC as [Hb _].
    subst b. subst rest.
    rewrite think_loop_pair by assumption.
    rewrite IH.
    + now rewrite <- !app_assoc.
    + rewrite !length_app in Hfuel. simpl in Hfuel. lia.
Qed.

(** Every text has a description. *)
Lemma think_spans_exists (rest : pystr) :
  exists parts visible, think_spans rest parts visible.
Proof.
  remember (length rest) as n eqn:Hn.
  revert rest Hn.
  induction n as [n IH] using lt_wf_ind. intros rest Hn.
  destruct (search OPEN rest) as [i|] eqn:EO.
  - apply search_some in EO as (a & b & HO & _).
    destruct (search CLOSE b) as [j|] eqn:EC.
    + apply search_some in EC as (body & post & HC & _).
      destruct (IH (length post)) with (rest := post)
        as (parts & visible & Hrec); [|reflexivity|].
      * destruct HO as [-> _]. destruct HC as [-> _].
        subst n. rewrite !length_app. simpl. lia.
      * exists (body :: parts), (a ++ visible).
        now apply spans_pair with (b := b) (post := post).
    + exists [], rest. apply spans_no_close with (a := a) (b := b); [exact HO|].
      now apply search_none.
  - exists [], rest. apply spans_no_open. now apply search_none.
Qed.

(** And only one. *)
Lemma think_spans_fun (rest : pystr) (p p' : list pystr) (v v' : pystr) :
  think_spans rest p v -> think_spans rest p' v' -> p = p' /\ v = v'.
Proof.
  intros H H'.
  pose proof (think_loop_spans _ _ _ H (S (length rest)) [] [] ltac:(lia)) as E.
  pose proof (think_loop_spans _ _ _ H' (S (length rest)) [] [] ltac:(lia)) as E'.
  rewrite E in E'. simpl in E'. injection E' as -> ->. now split.
Qed.

(** The loop of [_split_think] ends within its fuel, on every text. *)
Lemma think_loop_total (t : pystr) :
  exists parts visible,
    think_spans t parts visible /\
    think_loop (S (length t)) [] t 0 = Some (parts, visible).
Proof.
  destruct (think_spans_exists t) as (parts & visible & H).
  exists parts, visible. split; [exact H|].
  exact (think_loop_spans _ _ _ H (S (length t)) [] [] ltac:(lia)).
Qed.

Lemma split_think_spans (t : pystr) (parts : list pystr) (visible : pystr) :
  think_spans t parts visible ->
  _split_think (PyStr t) = Ok (join NEWLINE parts, visible).
Proof.
  intros H.
  pose proof (think_loop_spans _ _ _ H (S (length t)) [] [] ltac:(lia)) as E.
  change (len []) with 0 in E. cbn [app] in E.
  destruct t as [|c t].
  - vm_compute in E. injection E as <- <-. reflexivity.
  - unfold _split_think. cbn [truthy negb]. now rewrite E.
Qed.

(** C5. [_split_think] takes the well-formed pairs out left to right: the
    body of each pair goes to the reasoning text, the bodies joined by a
    line feed, the pair and its body leave the output, and the scan goes on
    from where the pair started; with no opening marker left, or one that no
    closing marker follows, the rest stays in the output as it is. An empty
    or [None] text gives two empty strings. *)
Theorem split_think_left_to_right :
  (forall t : pystr,
      (exists parts visible, think_spans t parts visible) /\
      (forall parts visible,
          think_spans t parts visible ->
          _split_think (PyStr t) = Ok (join NEWLINE parts, visible))) /\
  _split_think (PyStr []) = Ok ([], []) /\
  _split_think PyNone = Ok ([], []).
Proof.
  split; [|split; reflexivity].
  intros t. split.
  - apply think_spans_exists.
  - apply split_think_spans.
Qed.

Example split_think_one :
  _split_think (PyStr (lit "a<think>x</think>b")) = Ok (lit "x", lit "ab").
Proof. reflexivity. Qed.

Example split_think_adjacent :
  _split_think (PyStr (lit "<think>a</think><think>b</think>"))
  = Ok (lit "a" ++ NEWLINE ++ lit "b", []).
Proof. reflexivity. Qed.

Example split_think_unclosed :
  _split_think (PyStr (lit "a<think>x")) = Ok ([], lit "a<think>x").
Proof. reflexivity. Qed.

(** The scan goes on from where the pair started: a marker that the removal
    completes to the left of that point is not looked at. *)
Example split_think_junction :
  _split_think (PyStr (lit "<th<think>r</think>ink>")) = Ok (lit "r", lit "<think>").
Proof. reflexivity. Qed.

(** A marker whose first character does not come back inside it cannot
    overlap itself: before its first occurrence there is what holds none. *)
Lemma marker_first (c : N) (m v b : pystr) :
  ~ In c m ->
  no_occ (c :: m) v ->
  first_occ (c :: m) (v ++ (c :: m) ++ b) v b.
Proof.
  intros Hc Hv. split; [reflexivity|].
  intros a' b' E.
  destruct (le_lt_dec (length v) (length a')) as [Hle|Hlt]; [exact Hle|].
  exfalso.
  apply app_eq_app in E as [l [[Ev El] | [Ea _]]].
  2: { rewrite Ea, length_app in Hlt. lia. }
  apply app_eq_app in El as [l2 [[Em E2] | [El _]]].
  - destruct l as [|c' l0].
    + rewrite app_nil_r in Ev. subst a'. lia.
    + simpl in Em. injection Em as <- Em.
      destruct l2 as [|d l2'].
      * rewrite app_nil_r in Em. subst l0.
        apply (Hv a' []). now rewrite app_nil_r.
      * simpl in E2. injection E2 as <- _.
        apply Hc. rewrite Em. apply in_or_app. right. now left.
  - subst l. now apply (Hv a' l2).
Qed.

Lemma OPEN_first (v b : pystr) :
  no_occ OPEN v -> first_occ OPEN (v ++ OPEN ++ b) v b.
Proof.
  apply marker_first. cbv. intros H.
  repeat (destruct H as [H|H]; [discriminate|]). exact H.
Qed.

Lemma CLOSE_first (r b : pystr) :
  no_occ CLOSE r -> first_occ CLOSE (r ++ CLOSE ++ b) r b.
Proof.
  apply marker_first. cbv. intros H.
  repeat (destruct H as [H|H]; [discriminate|]). exact H.
Qed.

(** A text with no pair of markers is left as it is. *)
Lemma think_spans_no_pair (tail : pystr) :
  (forall a b c, tail <> a ++ OPEN ++ b ++ CLOSE ++ c) ->
  think_spans tail [] tail.
Proof.
  intros Hno.
  destruct (search OPEN tail) as [i|] eqn:EO.
  - apply search_some in EO as (a & b & HO & _).
    apply spans_no_close with (a := a) (b := b); [exact HO|].
    intros body post Hb. destruct HO as [Ht _].
    apply (Hno a body post). now rewrite Ht, Hb.
  - apply spans_no_open. now apply search_none.
Qed.

Lemma think_spans_assemble (spans : list (pystr * pystr)) (tail : pystr) :
  well_formed spans tail ->
  think_spans (assemble spans tail)
    (map snd spans) (concat (map fst spans) ++ tail).
Proof.
  intros [Hspans Htail].
  induction Hspans as [|[v r] spans [Hv Hr] _ IH]; simpl in *.
  - now apply think_spans_no_pair.
  - rewrite <- app_assoc.
    apply spans_pair with (b := r ++ CLOSE ++ assemble spans tail)
                          (post := assemble spans tail).
    + now apply OPEN_first.
    + now apply CLOSE_first.
    + exact IH.
Qed.

Lemma len_assemble (spans : list (pystr * pystr)) (tail : pystr) :
  len (assemble spans tail) =
  len (concat (map fst spans) ++ tail) + bodies_len spans
  + Z.of_nat (length spans) * (len OPEN + len CLOSE).
Proof.
  induction spans as [|[v r] spans IH].
  - simpl. lia.
  - cbn [assemble map concat bodies_len fold_right fst snd length].
    fold (bodies_len spans).
    rewrite <- app_assoc, !len_app, IH, !len_app. lia.
Qed.

(** On a well-formed text the splitter returns the bodies and what lies
    between the spans; spans that touch are no exception. *)
Lemma split_think_assemble (spans : list (pystr * pystr)) (tail : pystr) :
  well_formed spans tail ->
  _split_think (PyStr (assemble spans tail))
  = Ok (join NEWLINE (map snd spans), concat (map fst spans) ++ tail).
Proof.
  intros H. apply split_think_spans. now apply think_spans_assemble.
Qed.

(** C6. For a text with exactly [k] well-formed reasoning spans that do not
    overlap or touch, the length of the visible text that [_split_think]
    returns, plus the lengths of the bodies, plus the length of the [k]
    pairs of markers, is the length of the text. *)
Theorem split_think_lengths (spans : list (pystr * pystr)) (tail : pystr) :
  well_formed spans tail ->
  non_adjacent spans ->
  exists reasoning visible,
    _split_think (PyStr (assemble spans tail)) = Ok (reasoning, visible) /\
    len visible + bodies_len spans
    + Z.of_nat (length spans) * (len OPEN + len CLOSE)
    = len (assemble spans tail).
Proof.
  intros Hwf _.
  rewrite (split_think_assemble _ _ Hwf).
  eexists. eexists. split; [reflexivity|].
  now rewrite len_assemble.
Qed.

(** Two spans in ["a<think>x</think>b<think>yz</think>c"]. *)
Lemma split_think_lengths_witness :
  exists reasoning visible,
    _split_think (PyStr (lit "a<think>x</think>b<think>yz</think>c"))
    = Ok (reasoning, visible) /\
    len visible + 3 + 2 * (7 + 8) = 36.
Proof.
  apply (split_think_lengths [(lit "a", lit "x"); (lit "b", lit "yz")] (lit "c")).
  - split.
    + repeat constructor; apply search_none; reflexivity.
    + intros a b c H.
      apply (search_none OPEN (lit "c") eq_refl a (b ++ CLOSE ++ c)).
      exact H.
  - simpl. repeat constructor. discriminate.
Defined.

(** ** Counting over concatenations and joins *)

Lemma ascii_count_app (a b : pystr) :
  ascii_count (a ++ b) = ascii_count a + ascii_count b.
Proof. unfold ascii_count. rewrite filter_app, length_app. lia. Qed.

Lemma non_ascii_count_app (a b : pystr) :
  non_ascii_count (a ++ b) = non_ascii_count a + non_ascii_count b.
Proof. unfold non_ascii_count. rewrite filter_app, length_app. lia. Qed.

Lemma sum_of_app (f : pystr -> Z) (l l' : list pystr) :
  sum_of f (l ++ l') = sum_of f l + sum_of f l'.
Proof. induction l as [|p l IH]; simpl; lia. Qed.

Lemma sum_of_perm (f : pystr -> Z) (l l' : list pystr) :
  Permutation l l' -> sum_of f l = sum_of f l'.
Proof. induction 1; simpl; lia. Qed.

Lemma sum_of_nonneg (f : pystr -> Z) (l : list pystr) :
  (forall p, 0 <= f p) -> 0 <= sum_of f l.
Proof. intros Hf. induction l as [|p l IH]; simpl; [lia|]. specialize (Hf p). lia. Qed.

(** The separators of a join are ASCII: one for each fragment but the
    first. *)
Lemma ascii_count_join (l : list pystr) :
  ascii_count (join NEWLINE l)
  = sum_of ascii_count l + Z.max 0 (Z.of_nat (length l) - 1).
Proof.
  induction l as [|p l IH]; [reflexivity|].
  destruct l as [|p' l].
  - simpl. lia.
  - change (join NEWLINE (p :: p' :: l))
      with (p ++ NEWLINE ++ join NEWLINE (p' :: l)).
    rewrite !ascii_count_app, IH.
    change (ascii_count NEWLINE) with 1.
    cbn [sum_of fold_right length]. lia.
Qed.

Lemma non_ascii_count_join (l : list pystr) :
  non_ascii_count (join NEWLINE l) = sum_of non_ascii_count l.
Proof.
  induction l as [|p l IH]; [reflexivity|].
  destruct l as [|p' l].
  - simpl. lia.
  - change (join NEWLINE (p :: p' :: l))
      with (p ++ NEWLINE ++ join NEWLINE (p' :: l)).
    rewrite !non_ascii_count_app, IH.
    change (non_ascii_count NEWLINE) with 0.
    cbn [sum_of fold_right]. lia.
Qed.

Lemma count_tokens_estimate (s : pystr) : _count_tokens (PyStr s) = Ok (estimate s).
Proof. apply count_tokens_str. Qed.

(** The estimate grows with the two counts. *)
Lemma estimate_mono (s s' : pystr) :
  ascii_count s <= ascii_count s' ->
  non_ascii_count s <= non_ascii_count s' ->
  estimate s <= estimate s'.
Proof.
  intros Ha Hn. unfold estimate.
  pose proof (ceil_quarter (ascii_count s)) as [? ?].
  pose proof (ceil_quarter (ascii_count s')) as [? ?].
  lia.
Qed.

Lemma estimate_counts (s s' : pystr) :
  ascii_count s = ascii_count s' ->
  non_ascii_count s = non_ascii_count s' ->
  estimate s = estimate s'.
Proof. intros Ha Hn. unfold estimate. now rewrite Ha, Hn. Qed.

(** X1. The estimate of a string lies between a quarter of its length and
    its length. *)
Theorem count_tokens_bounds (s : pystr) :
  exists k, _count_tokens (PyStr s) = Ok k /\ len s <= 4 * k /\ k <= len s.
Proof.
  exists (estimate s). split; [apply count_tokens_estimate|].
  unfold estimate.
  pose proof (ceil_quarter (ascii_count s)) as [? ?].
  pose proof (ascii_count_nonneg s). pose proof (non_ascii_count_nonneg s).
  pose proof (count_split s).
  lia.
Qed.

(** X2. Counting two strings apart costs as much as counting them in one,
    or one token more. *)
Theorem count_tokens_concat (a b : pystr) :
  exists ka kb k,
    _count_tokens (PyStr a) = Ok ka /\
    _count_tokens (PyStr b) = Ok kb /\
    _count_tokens (PyStr (a ++ b)) = Ok k /\
    k <= ka + kb <= k + 1.
Proof.
  exists (estimate a), (estimate b), (estimate (a ++ b)).
  repeat (split; [apply count_tokens_estimate|]).
  unfold estimate. rewrite ascii_count_app, non_ascii_count_app.
  pose proof (ceil_quarter (ascii_count a)) as [? ?].
  pose proof (ceil_quarter (ascii_count b)) as [? ?].
  pose proof (ceil_quarter (ascii_count a + ascii_count b)) as [? ?].
  lia.
Qed.

(** ** What the splitter keeps *)

(** Every character of the text is in the visible text, in a body, or in
    one of the markers taken out; a body holds no closing marker. *)
Lemma think_spans_account (f : pystr -> Z) (rest : pystr)
    (parts : list pystr) (visible : pystr) :
  (forall a b, f (a ++ b) = f a + f b) ->
  think_spans rest parts visible ->
  f rest = f visible + sum_of f parts
           + Z.of_nat (length parts) * (f OPEN + f CLOSE).
Proof.
  intros Hf H.
  induction H as [rest _ | rest a b _ _
                 | rest a b body post parts visible [-> _] [-> _] _ IH].
  - simpl. lia.
  - simpl. lia.
  - rewrite !Hf, IH.
    change (sum_of f (body :: parts)) with (f body + sum_of f parts).
    cbn [length]. rewrite Nat2Z.inj_succ. unfold Z.succ. ring.
Qed.

Lemma think_spans_bodies (rest : pystr) (parts : list pystr) (visible : pystr) :
  think_spans rest parts visible -> Forall (no_occ CLOSE) parts.
Proof.
  induction 1 as [| | rest a b body post parts visible _ HC _ IH];
    try constructor; [|exact IH].
  intros x y Hbody. destruct HC as [Hb Hmin].
  specialize (Hmin x (y ++ CLOSE ++ post)).
  rewrite Hbody, <- !app_assoc in Hb. specialize (Hmin Hb).
  rewrite Hbody, !length_app in Hmin.
  change (length CLOSE) with 8%nat in Hmin. lia.
Qed.

(** X3. On every text, the visible text that [_split_think] returns, the
    bodies it joins into the reasoning text and the fifteen characters of
    markers per body add up to the text; no body holds a closing marker. *)
Theorem split_think_accounts (t : pystr) :
  exists parts visible,
    _split_think (PyStr t) = Ok (join NEWLINE parts, visible) /\
    Forall (no_occ CLOSE) parts /\
    len visible + sum_of len parts + 15 * Z.of_nat (length parts) = len t.
Proof.
  destruct (think_loop_total t) as (parts & visible & H & _).
  exists parts, visible. split; [now apply split_think_spans|].
  split; [now apply think_spans_bodies with (rest := t) (visible := visible)|].
  rewrite (think_spans_account len t parts visible len_app H).
  rewrite len_OPEN, len_CLOSE. lia.
Qed.

Lemma no_close_spans (t : pystr) : no_occ CLOSE t -> think_spans t [] t.
Proof.
  intros Hno.
  destruct (search OPEN t) as [i|] eqn:EO.
  - apply search_some in EO as (a & b & HO & _).
    apply spans_no_close with (a := a) (b := b); [exact HO|].
    intros x y Hb. destruct HO as [Ht _].
    apply (Hno (a ++ OPEN ++ x) y). rewrite Ht, Hb.
    now rewrite <- !app_assoc.
  - apply spans_no_open. now apply search_none.
Qed.

(** X4. A text without an opening marker, or without a closing marker, comes
    back whole as the visible text, with an empty reasoning text. *)
Theorem split_think_plain (t : pystr) :
  no_occ OPEN t \/ no_occ CLOSE t ->
  _split_think (PyStr t) = Ok ([], t).
Proof.
  intros [H | H].
  - apply (split_think_spans t [] t). now apply spans_no_open.
  - apply (split_think_spans t [] t). now apply no_close_spans.
Qed.

Lemma split_think_plain_witness :
  _split_think (PyStr (lit "2 < 3 </think> done")) = Ok ([], lit "2 < 3 </think> done").
Proof.
  apply split_think_plain. left. apply search_none. reflexivity.
Defined.

(** X5. A text put together from spans, touching or not, is split into
    exactly the bodies, joined by line feeds, and the text around them. *)
Theorem split_think_contents (spans : list (pystr * pystr)) (tail : pystr) :
  well_formed spans tail ->
  _split_think (PyStr (assemble spans tail))
  = Ok (join NEWLINE (map snd spans), concat (map fst spans) ++ tail).
Proof.
  intros Hwf.
  apply split_think_spans.
  now apply think_spans_assemble.
Qed.

Lemma split_think_contents_witness :
  _split_think (PyStr (lit "<think>plan</think><think>check</think>The answer."))
  = Ok (lit "plan" ++ NEWLINE ++ lit "check", lit "The answer.").
Proof.
  apply (split_think_contents [([], lit "plan"); ([], lit "check")] (lit "The answer.")).
  split.
  - repeat constructor; apply search_none; reflexivity.
  - intros a b c H.
    apply (search_none OPEN (lit "The answer.") eq_refl a (b ++ CLOSE ++ c)).
    exact H.
Defined.

(** ** Results and what [str] prints *)

Lemma bind_ok {A B : Type} (r : result A) (k : A -> result B) (b : B) :
  bind r k = Ok b -> exists a, r = Ok a /\ k a = Ok b.
Proof.
  destruct r as [a|e]; [|discriminate].
  intros H. now exists a.
Qed.

Lemma bind_ret {A : Type} (r : result A) : bind r Ok = r.
Proof. now destruct r. Qed.

Lemma split_think_str (s : pystr) :
  exists reasoning visible, _split_think (PyStr s) = Ok (reasoning, visible).
Proof.
  destruct (think_loop_total s) as (parts & visible & H & _).
  exists (join NEWLINE parts), visible. now apply split_think_spans.
Qed.

Lemma py_or_str (s : pystr) : py_or (PyStr s) (PyStr []) = PyStr s.
Proof. destruct s; reflexivity. Qed.

Lemma estimate_nonneg (s : pystr) : 0 <= estimate s.
Proof.
  unfold estimate.
  pose proof (ceil_quarter (ascii_count s)) as [? ?].
  pose proof (ascii_count_nonneg s). pose proof (non_ascii_count_nonneg s).
  lia.
Qed.

(** A value of a dict that holds no long int holds none. *)
Lemma dict_get_short (d : pydict) (key : pystr) :
  has_long_int (PyDict d) = false -> has_long_int (dict_get d key) = false.
Proof.
  cbn [has_long_int]. induction d as [|[k v] d IH]; [reflexivity|].
  cbn [existsb dict_get snd]. intros H.
  apply orb_false_elim in H as [Hv Hd].
  destruct (str_eqb k key); [exact Hv | now apply IH].
Qed.

Lemma py_or_short (a b : pyval) :
  has_long_int a = false -> has_long_int b = false ->
  has_long_int (py_or a b) = false.
Proof. unfold py_or. now destruct (truthy a). Qed.

Lemma collect_app {A : Type} (f : A -> result (list pystr)) (l l' : list A) :
  collect f (l ++ l')
  = (a <- collect f l ;; b <- collect f l' ;; Ok (a ++ b)).
Proof.
  induction l as [|x l IH].
  - cbn [app collect bind]. now rewrite bind_ret.
  - cbn [app collect]. rewrite IH.
    destruct (f x) as [a|e]; [|reflexivity]. cbn [bind].
    destruct (collect f l) as [b|e]; [|reflexivity]. cbn [bind].
    destruct (collect f l') as [c|e]; [|reflexivity]. cbn [bind].
    now rewrite app_assoc.
Qed.

(** A loop that appends what [f] gives for each element collects [f] over
    the list. *)
Lemma for_each_collect {A : Type} (step : list pystr -> A -> result (list pystr))
    (f : A -> result (list pystr)) :
  (forall acc x, step acc x = (a <- f x ;; Ok (acc ++ a))) ->
  forall l acc, for_each step l acc = (a <- collect f l ;; Ok (acc ++ a)).
Proof.
  intros Hstep. induction l as [|x l IH]; intros acc.
  - cbn. now rewrite app_nil_r.
  - cbn [for_each collect]. rewrite Hstep.
    destruct (f x) as [a|e]; [|reflexivity]. cbn [bind].
    rewrite IH.
    destruct (collect f l) as [b|e]; [|reflexivity]. cbn [bind].
    now rewrite app_assoc.
Qed.

Lemma collect_forall {A : Type} (P : pystr -> Prop)
    (f : A -> result (list pystr)) (l : list A) (out : list pystr) :
  (forall x a, f x = Ok a -> Forall P a) ->
  collect f l = Ok out -> Forall P out.
Proof.
  intros Hf. revert out. induction l as [|x l IH]; intros out H.
  - injection H as <-. constructor.
  - cbn [collect] in H.
    apply bind_ok in H as (a & Ha & H).
    apply bind_ok in H as (b & Hb & H). injection H as <-.
    apply Forall_app. split; [now apply (Hf x) | now apply IH].
Qed.

Lemma collect_ok {A : Type} (f : A -> result (list pystr)) (l : list A) :
  Forall (fun x => exists a, f x = Ok a) l -> exists out, collect f l = Ok out.
Proof.
  induction 1 as [|x l [a Ha] _ [b Hb]].
  - now exists [].
  - exists (a ++ b). cbn [collect]. now rewrite Ha, Hb.
Qed.

Lemma collect_raise {A : Type} (f : A -> result (list pystr)) (l : list A)
    (e : exn) :
  (forall x e', f x = Raise e' -> e' = ValueError) ->
  collect f l = Raise e -> e = ValueError.
Proof.
  intros Hf. induction l as [|x l IH]; [discriminate|].
  cbn [collect]. destruct (f x) as [a|e'] eqn:Ex; cbn [bind].
  - destruct (collect f l) as [b|e'']; cbn [bind]; [discriminate|].
    intros H. injection H as <-. now apply IH.
  - intros H. injection H as <-. now apply (Hf x).
Qed.

(** ** The prompt extractor *)

Section PromptExtractor.

Variable repr : pyval -> pystr.

Lemma py_str_short (v : pyval) :
  has_long_int v = false -> exists t, py_str repr v = Ok t.
Proof. intros H. unfold py_str. rewrite H. now eexists. Qed.

Lemma py_str_raise (v : pyval) (e : exn) :
  py_str repr v = Raise e -> e = ValueError.
Proof.
  unfold py_str. destruct (has_long_int v); [|discriminate].
  intros H. now injection H.
Qed.

Lemma py_str_string (s : pystr) : py_str repr (PyStr s) = Ok s.
Proof. reflexivity. Qed.

Lemma append_if_text_kept (acc : list pystr) (t : pystr) :
  append_if_text acc t = acc ++ kept t.
Proof.
  unfold append_if_text, kept.
  destruct (strip t); [now rewrite app_nil_r | reflexivity].
Qed.

Lemma text_step (acc : list pystr) (v : pyval) :
  (t <- py_str repr (py_or v (PyStr [])) ;; Ok (append_if_text acc t))
  = (a <- text_of repr v ;; Ok (acc ++ a)).
Proof.
  unfold text_of.
  destruct (py_str repr _) as [t|e]; [|reflexivity].
  cbn [bind]. now rewrite append_if_text_kept.
Qed.

Lemma item_step_texts (acc : list pystr) (item : pyval) :
  item_step repr acc item = (a <- part_texts repr item ;; Ok (acc ++ a)).
Proof.
  unfold item_step, part_texts.
  destruct item; try (cbn [bind]; now rewrite app_nil_r).
  destruct (eq_str _ _); [apply text_step | cbn [bind]; now rewrite app_nil_r].
Qed.

Lemma msg_step_texts (acc : list pystr) (msg : pydict) :
  msg_step repr acc (PyDict msg) = (a <- message_texts repr msg ;; Ok (acc ++ a)).
Proof.
  unfold msg_step, message_texts. cbn [py_get bind].
  destruct (dict_get msg (lit "content")); try apply text_step.
  apply for_each_collect. apply item_step_texts.
Qed.

Lemma msgs_fold_texts (msgs : list pydict) (acc : list pystr) :
  for_each (msg_step repr) (map PyDict msgs) acc
  = (a <- fragments repr msgs ;; Ok (acc ++ a)).
Proof.
  unfold fragments.
  revert acc. induction msgs as [|msg msgs IH]; intros acc.
  - cbn. now rewrite app_nil_r.
  - cbn [map for_each collect]. rewrite msg_step_texts.
    destruct (message_texts repr msg) as [a|e]; [|reflexivity]. cbn [bind].
    rewrite IH.
    destruct (collect (message_texts repr) msgs) as [b|e]; [|reflexivity].
    cbn [bind]. now rewrite app_assoc.
Qed.

Lemma messages_iter (messages : option (list pydict)) :
  py_iter (py_or (messages_arg messages) (PyList []))
  = Ok (map PyDict (match messages with Some l => l | None => [] end)).
Proof. destruct messages as [[|msg msgs]|]; reflexivity. Qed.

(** Every fragment collected has something left after trimming. *)
Lemma kept_not_blank (t : pystr) : Forall (fun u => strip u <> []) (kept t).
Proof.
  unfold kept. destruct (strip t) eqn:E; constructor; [|constructor].
  now rewrite E.
Qed.

Lemma text_of_not_blank (v : pyval) (a : list pystr) :
  text_of repr v = Ok a -> Forall (fun u => strip u <> []) a.
Proof.
  unfold text_of. intros H. apply bind_ok in H as (t & _ & H).
  injection H as <-. apply kept_not_blank.
Qed.

Lemma fragments_not_blank (msgs : list pydict) (frags : list pystr) :
  fragments repr msgs = Ok frags -> Forall (fun u => strip u <> []) frags.
Proof.
  apply collect_forall. intros msg a. unfold message_texts.
  destruct (dict_get msg (lit "content")); try apply text_of_not_blank.
  apply collect_forall. intros item b. unfold part_texts.
  destruct item; try (intros H; injection H as <-; constructor).
  destruct (eq_str _ _); [apply text_of_not_blank|].
  intros H; injection H as <-; constructor.
Qed.

(** Messages that hold no long int have their fragments. *)
Lemma text_of_short (v : pyval) :
  has_long_int v = false -> exists a, text_of repr v = Ok a.
Proof.
  intros H. unfold text_of.
  destruct (py_str_short (py_or v (PyStr []))) as [t ->];
    [now apply py_or_short|]. now eexists.
Qed.

Lemma part_texts_short (item : pyval) :
  has_long_int item = false -> exists a, part_texts repr item = Ok a.
Proof.
  intros H. unfold part_texts.
  destruct item; try (now eexists).
  destruct (eq_str _ _); [|now eexists].
  apply text_of_short. now apply dict_get_short.
Qed.

Lemma message_texts_short (msg : pydict) :
  has_long_int (PyDict msg) = false -> exists a, message_texts repr msg = Ok a.
Proof.
  intros H. unfold message_texts.
  pose proof (dict_get_short msg (lit "content") H) as Hc.
  destruct (dict_get msg (lit "content")) as [|b|z|s|l|d] eqn:E;
    try (apply text_of_short; exact Hc).
  apply collect_ok. cbn [has_long_int] in Hc.
  apply Forall_forall. intros item Hin. apply part_texts_short.
  destruct (has_long_int item) eqn:Ei; [|reflexivity].
  assert (existsb has_long_int l = true) as Hex
    by (apply existsb_exists; now exists item).
  congruence.
Qed.

Lemma fragments_short (msgs : list pydict) :
  has_long_int (PyList (map PyDict msgs)) = false ->
  exists frags, fragments repr msgs = Ok frags.
Proof.
  intros H. apply collect_ok. cbn [has_long_int] in H.
  apply Forall_forall. intros msg Hin. apply message_texts_short.
  destruct (has_long_int (PyDict msg)) eqn:Em; [|reflexivity].
  assert (existsb has_long_int (map PyDict msgs) = true) as Hex.
  { apply existsb_exists. exists (PyDict msg). split; [|exact Em].
    now apply in_map. }
  congruence.
Qed.

Lemma messages_short (messages : option (list pydict)) :
  has_long_int (messages_arg messages) = false ->
  has_long_int
    (PyList (map PyDict (match messages with Some l => l | None => [] end)))
  = false.
Proof. now destruct messages. Qed.

(** The estimate is made of the fragments, and raises when collecting
    them does. *)
Lemma estimate_prompt_tokens_typed (messages : option (list pydict)) :
  estimate_prompt_tokens repr (messages_arg messages)
  = (frags <- fragments repr (match messages with Some l => l | None => [] end) ;;
     Ok {| Prompt.text_tokens := estimate (join NEWLINE frags);
           Prompt.image_tokens := 0;
           Prompt.prompt_tokens := estimate (join NEWLINE frags) + 0 |}).
Proof.
  unfold estimate_prompt_tokens.
  rewrite messages_iter. cbn [bind].
  rewrite msgs_fold_texts.
  destruct (fragments repr _) as [frags|e]; [|reflexivity].
  cbn [bind app]. now rewrite count_tokens_estimate.
Qed.


Lemma estimate_prompt_tokens_short (messages : option (list pydict)) :
  has_long_int (messages_arg messages) = false ->
  exists r, estimate_prompt_tokens repr (messages_arg messages) = Ok r.
Proof.
  intros H. rewrite estimate_prompt_tokens_typed. apply messages_short in H.
  destruct messages as [l|]; [|eexists; reflexivity].
  destruct (fragments_short _ H) as [frags ->]. now eexists.
Qed.

(** ** The usage aggregator *)

Lemma completion_or_empty (completion_text : option pystr) :
  py_or (text_arg completion_text) (PyStr [])
  = PyStr (match completion_text with Some s => s | None => [] end).
Proof. destruct completion_text as [[|ch s]|]; reflexivity. Qed.

Lemma build_chat_usage_typed (messages : option (list pydict))
    (completion_text : option pystr) :
  has_long_int (messages_arg messages) = false ->
  exists u,
    build_chat_usage repr (messages_arg messages) (text_arg completion_text) = Ok u.
Proof.
  intros H. unfold build_chat_usage.
  destruct (estimate_prompt_tokens_short messages H) as [r ->].
  cbn [bind]. rewrite completion_or_empty.
  destruct (split_think_str
              (match completion_text with Some s => s | None => [] end))
    as (reasoning & visible & ->).
  cbn [bind]. rewrite !count_tokens_str. cbn [bind].
  eexists. reflexivity.
Qed.

(** C3. For all messages and every completion text, the report of
    [build_chat_usage] has [completion_tokens] equal to the text tokens plus
    the reasoning tokens of its completion details, and [total_tokens]
    equal to [prompt_tokens + completion_tokens]; and there is a report
    for all messages and texts of the annotated types that hold no int too
    long to print. *)
Theorem build_chat_usage_totals :
  (forall (messages completion_text : pyval) (u : ChatUsage.t),
      build_chat_usage repr messages completion_text = Ok u ->
      ChatUsage.completion_tokens u
      = CompletionDetails.text_tokens (ChatUsage.completion_tokens_details u)
        + CompletionDetails.reasoning_tokens (ChatUsage.completion_tokens_details u)
      /\
      ChatUsage.total_tokens u
      = ChatUsage.prompt_tokens u + ChatUsage.completion_tokens u) /\
  (forall (messages : option (list pydict)) (completion_text : option pystr),
      has_long_int (messages_arg messages) = false ->
      exists u,
        build_chat_usage repr (messages_arg messages) (text_arg completion_text)
        = Ok u).
Proof.
  split; [|apply build_chat_usage_typed].
  intros messages completion_text u H.
  unfold build_chat_usage in H.
  apply bind_ok in H as (prompt & _ & H).
  apply bind_ok in H as ([reasoning_text output_text] & _ & H).
  apply bind_ok in H as (completion_text_tokens & _ & H).
  apply bind_ok in H as (reasoning_tokens & _ & H).
  injection H as <-. split; reflexivity.
Qed.

End PromptExtractor.

Example estimate_prompt_tokens_batched :
  let user := [(lit "role", PyStr (lit "user")); (lit "content", PyStr (lit "a"))] in
  let parts :=
    [(lit "content",
      PyList [PyDict [(lit "type", PyStr (lit "text")); (lit "text", PyStr (lit "b"))];
              PyDict [(lit "type", PyStr (lit "image_url"))];
              PyDict [(lit "type", PyStr (lit "text")); (lit "text", PyStr (lit "  "))];
              PyStr (lit "c")])] in
  fragments no_repr [user; parts] = Ok [lit "a"; lit "b"] /\
  estimate_prompt_tokens no_repr (PyList [PyDict user; PyDict parts])
  = Ok {| Prompt.text_tokens := 1; Prompt.image_tokens := 0;
          Prompt.prompt_tokens := 1 |} /\
  _count_tokens (PyStr (lit "a")) = Ok 1 /\
  _count_tokens (PyStr (lit "b")) = Ok 1.
Proof. repeat split; reflexivity. Qed.

(** Outside the annotations the entry points can raise. *)
Example estimate_prompt_tokens_not_a_dict :
  estimate_prompt_tokens no_repr (PyList [PyStr (lit "hello")])
  = Raise AttributeError.
Proof. reflexivity. Qed.

Example build_chat_usage_not_a_str :
  build_chat_usage no_repr (PyList []) (PyInt 5) = Raise AttributeError.
Proof. reflexivity. Qed.

(** A content that is an int of 4301 digits: [str] raises. *)
Example estimate_prompt_tokens_long_int :
  estimate_prompt_tokens no_repr
    (PyList [PyDict [(lit "content", PyInt (10 ^ 4300))]])
  = Raise ValueError.
Proof. vm_compute. reflexivity. Qed.

(** ** Reports of [build_chat_usage] *)

(** Taking the spans out never raises the estimate: the markers go, and a
    line feed comes in only between two bodies. *)
Lemma think_spans_estimate (t : pystr) (parts : list pystr) (visible : pystr) :
  think_spans t parts visible ->
  estimate visible + estimate (join NEWLINE parts) <= estimate t.
Proof.
  intros H.
  pose proof (think_spans_account ascii_count t parts visible ascii_count_app H) as Ha.
  pose proof (think_spans_account non_ascii_count t parts visible
                non_ascii_count_app H) as Hn.
  change (ascii_count OPEN) with 7 in Ha. change (ascii_count CLOSE) with 8 in Ha.
  change (non_ascii_count OPEN) with 0 in Hn.
  change (non_ascii_count CLOSE) with 0 in Hn.
  unfold estimate. rewrite ascii_count_join, non_ascii_count_join.
  pose proof (ceil_quarter (ascii_count visible)) as [? ?].
  pose proof (ceil_quarter (sum_of ascii_count parts
                            + Z.max 0 (Z.of_nat (length parts) - 1))) as [? ?].
  pose proof (ceil_quarter (ascii_count t)) as [? ?].
  pose proof (sum_of_nonneg ascii_count parts ascii_count_nonneg).
  pose proof (ascii_count_nonneg visible).
  pose proof (ascii_count_nonneg visible).
  destruct parts as [|p parts].
  - change (sum_of ascii_count []) with 0 in *.
    change (sum_of non_ascii_count []) with 0 in *.
    cbn [length] in *. lia.
  - cbn [length] in *. lia.
Qed.

Section ChatReports.

Variable repr : pyval -> pystr.

(** What a report is made of. *)
Lemma build_chat_usage_inv (messages completion_text : pyval) (u : ChatUsage.t) :
  build_chat_usage repr messages completion_text = Ok u ->
  exists prompt reasoning_text output_text,
    estimate_prompt_tokens repr messages = Ok prompt /\
    _split_think (py_or completion_text (PyStr [])) = Ok (reasoning_text, output_text) /\
    ChatUsage.prompt_tokens u = Prompt.prompt_tokens prompt /\
    ChatUsage.prompt_tokens_details u
    = {| PromptDetails.cached_tokens := 0;
         PromptDetails.text_tokens := Prompt.text_tokens prompt;
         PromptDetails.audio_tokens := 0;
         PromptDetails.image_tokens := Prompt.image_tokens prompt |} /\
    ChatUsage.completion_tokens_details u
    = {| CompletionDetails.text_tokens := estimate output_text;
         CompletionDetails.audio_tokens := 0;
         CompletionDetails.reasoning_tokens := estimate reasoning_text |} /\
    ChatUsage.completion_tokens u = estimate output_text + estimate reasoning_text /\
    ChatUsage._raw u
    = {| Raw.reasoning_tokens := estimate reasoning_text;
         Raw.cached_tokens := 0;
         Raw.input_tokens := Prompt.prompt_tokens prompt;
         Raw.output_tokens := estimate output_text + estimate reasoning_text |}.
Proof.
  intros H. unfold build_chat_usage in H.
  apply bind_ok in H as (prompt & Hp & H).
  apply bind_ok in H as ([reasoning_text output_text] & Hs & H).
  rewrite !count_tokens_estimate in H. cbn [bind] in H.
  injection H as <-.
  exists prompt, reasoning_text, output_text.
  repeat (split; [first [assumption | reflexivity]|]). reflexivity.
Qed.

Lemma estimate_prompt_tokens_inv (messages : pyval) (r : Prompt.t) :
  estimate_prompt_tokens repr messages = Ok r ->
  exists text_parts,
    r = {| Prompt.text_tokens := estimate (join NEWLINE text_parts);
           Prompt.image_tokens := 0;
           Prompt.prompt_tokens := estimate (join NEWLINE text_parts) + 0 |}.
Proof.
  intros H. unfold estimate_prompt_tokens in H.
  apply bind_ok in H as (msgs & _ & H).
  apply bind_ok in H as (text_parts & _ & H).
  rewrite count_tokens_estimate in H. cbn [bind] in H.
  injection H as <-. now exists text_parts.
Qed.

(** X6. Taking the reasoning out of a completion never costs more than the
    completion as it came: [completion_tokens] is at most the count of the
    whole completion text. *)
Theorem build_chat_usage_split_saves (messages : pyval) (c : pystr)
    (u : ChatUsage.t) :
  build_chat_usage repr messages (PyStr c) = Ok u ->
  exists k, _count_tokens (PyStr c) = Ok k /\ ChatUsage.completion_tokens u <= k.
Proof.
  intros H.
  apply build_chat_usage_inv in H
    as (prompt & reasoning_text & output_text & _ & Hs & _ & _ & _ & Hc & _).
  rewrite py_or_str in Hs.
  destruct (think_loop_total c) as (parts & visible & Hspans & _).
  rewrite (split_think_spans _ _ _ Hspans) in Hs. injection Hs as <- <-.
  exists (estimate c). split; [apply count_tokens_estimate|].
  rewrite Hc. now apply think_spans_estimate.
Qed.

(** X7. A completion without an opening marker has no reasoning tokens, and
    its [completion_tokens] is the count of the completion text. *)
Theorem build_chat_usage_plain (messages : pyval) (c : pystr) (u : ChatUsage.t) :
  no_occ OPEN c ->
  build_chat_usage repr messages (PyStr c) = Ok u ->
  CompletionDetails.reasoning_tokens (ChatUsage.completion_tokens_details u) = 0 /\
  _count_tokens (PyStr c) = Ok (ChatUsage.completion_tokens u).
Proof.
  intros Hno H.
  apply build_chat_usage_inv in H
    as (prompt & reasoning_text & output_text & _ & Hs & _ & _ & Hd & Hc & _).
  rewrite py_or_str in Hs.
  rewrite (split_think_spans c [] c (spans_no_open c Hno)) in Hs.
  injection Hs as <- <-.
  rewrite Hd, Hc, count_tokens_estimate. cbn. split; [reflexivity|].
  f_equal. change (estimate []) with 0. lia.
Qed.

(** X8. In every report all the counts are non-negative, and the raw part
    repeats the reasoning, prompt and completion tokens of the report. *)
Theorem build_chat_usage_consistent (messages completion_text : pyval)
    (u : ChatUsage.t) :
  build_chat_usage repr messages completion_text = Ok u ->
  0 <= ChatUsage.prompt_tokens u /\
  0 <= CompletionDetails.text_tokens (ChatUsage.completion_tokens_details u) /\
  0 <= CompletionDetails.reasoning_tokens (ChatUsage.completion_tokens_details u) /\
  ChatUsage.prompt_tokens u <= ChatUsage.total_tokens u /\
  Raw.input_tokens (ChatUsage._raw u) = ChatUsage.prompt_tokens u /\
  Raw.output_tokens (ChatUsage._raw u) = ChatUsage.completion_tokens u /\
  Raw.reasoning_tokens (ChatUsage._raw u)
  = CompletionDetails.reasoning_tokens (ChatUsage.completion_tokens_details u).
Proof.
  intros H.
  pose proof (build_chat_usage_inv _ _ _ H)
    as (prompt & reasoning_text & output_text & Hp & _ & Hin & _ & Hd & Hc & Hraw).
  apply estimate_prompt_tokens_inv in Hp as (text_parts & ->).
  assert (ChatUsage.total_tokens u
          = ChatUsage.prompt_tokens u + ChatUsage.completion_tokens u) as Ht.
  { unfold build_chat_usage in H.
    apply bind_ok in H as (? & _ & H).
    apply bind_ok in H as ([? ?] & _ & H).
    apply bind_ok in H as (? & _ & H).
    apply bind_ok in H as (? & _ & H).
    injection H as <-. reflexivity. }
  rewrite Ht, Hraw, Hd, Hc, Hin.
  cbn [Prompt.prompt_tokens Raw.input_tokens Raw.output_tokens
       Raw.reasoning_tokens CompletionDetails.text_tokens
       CompletionDetails.reasoning_tokens].
  pose proof (estimate_nonneg (join NEWLINE text_parts)).
  pose proof (estimate_nonneg output_text).
  pose proof (estimate_nonneg reasoning_text).
  repeat split; lia.
Qed.

(** X9. [build_chat_usage] returns a report exactly when
    [estimate_prompt_tokens] returns for the messages and the completion
    text is a string or a false value such as [None]. *)
Theorem build_chat_usage_returns_iff (messages completion_text : pyval) :
  (exists u, build_chat_usage repr messages completion_text = Ok u) <->
  (exists r, estimate_prompt_tokens repr messages = Ok r) /\
  (truthy completion_text = false \/ exists s, completion_text = PyStr s).
Proof.
  split.
  - intros [u H].
    apply build_chat_usage_inv in H as (prompt & rt & ot & Hp & Hs & _).
    split; [now exists prompt|].
    destruct (truthy completion_text) eqn:Et; [right|now left].
    unfold py_or in Hs. rewrite Et in Hs.
    unfold _split_think in Hs. rewrite Et in Hs. cbn [negb] in Hs.
    destruct completion_text; try discriminate. now eexists.
  - intros [[r Hr] Hc].
    assert (exists s, py_or completion_text (PyStr []) = PyStr s) as [s Hs].
    { destruct Hc as [Hf | [s ->]].
      - exists []. unfold py_or. now rewrite Hf.
      - exists s. apply py_or_str. }
    unfold build_chat_usage. rewrite Hr, Hs. cbn [bind].
    destruct (split_think_str s) as (reasoning & visible & ->).
    cbn [bind]. rewrite !count_tokens_estimate. cbn [bind].
    eexists. reflexivity.
Qed.

End ChatReports.

Lemma build_chat_usage_split_saves_witness :
  exists k,
    _count_tokens (PyStr (lit "<think>plan</think>ok")) = Ok k /\
    2 <= k.
Proof.
  destruct (build_chat_usage_split_saves no_repr PyNone
              (lit "<think>plan</think>ok")
              {| ChatUsage.prompt_tokens := 0;
                 ChatUsage.completion_tokens := 2;
                 ChatUsage.total_tokens := 2;
                 ChatUsage.prompt_tokens_details :=
                   {| PromptDetails.cached_tokens := 0;
                      PromptDetails.text_tokens := 0;
                      PromptDetails.audio_tokens := 0;
                      PromptDetails.image_tokens := 0 |};
                 ChatUsage.completion_tokens_details :=
                   {| CompletionDetails.text_tokens := 1;
                      CompletionDetails.audio_tokens := 0;
                      CompletionDetails.reasoning_tokens := 1 |};
                 ChatUsage._raw :=
                   {| Raw.reasoning_tokens := 1;
                      Raw.cached_tokens := 0;
                      Raw.input_tokens := 0;
                      Raw.output_tokens := 2 |} |}
              eq_refl) as (k & Hk & Hle).
  exists k. split; [exact Hk | exact Hle].
Defined.

Lemma build_chat_usage_plain_witness :
  exists u,
    build_chat_usage no_repr PyNone (PyStr (lit "hello there")) = Ok u /\
    CompletionDetails.reasoning_tokens (ChatUsage.completion_tokens_details u) = 0 /\
    _count_tokens (PyStr (lit "hello there")) = Ok (ChatUsage.completion_tokens u).
Proof.
  eexists. split; [reflexivity|].
  apply (build_chat_usage_plain no_repr PyNone (lit "hello there")).
  - apply search_none. reflexivity.
  - reflexivity.
Defined.

Lemma build_chat_usage_consistent_witness :
  exists u,
    build_chat_usage no_repr
      (PyList [PyDict [(lit "content", PyStr (lit "What is 2 + 2?"))]])
      (PyStr (lit "<think>add</think>4")) = Ok u /\
    ChatUsage.prompt_tokens u <= ChatUsage.total_tokens u /\
    Raw.output_tokens (ChatUsage._raw u) = ChatUsage.completion_tokens u.
Proof.
  eexists. split; [reflexivity|].
  destruct (build_chat_usage_consistent no_repr
              (PyList [PyDict [(lit "content", PyStr (lit "What is 2 + 2?"))]])
              (PyStr (lit "<think>add</think>4")) _ eq_refl)
    as (_ & _ & _ & Hle & _ & Hout & _).
  split; [exact Hle | exact Hout].
Defined.

(** ** Image usage *)



Section ImageUsage.

Variable repr : pyval -> pystr.
Variable int_other : pystr -> option Z.

Lemma int_of_count (c : count_arg) :
  py_int int_other
    (py_or (match count_val c with Some v => v | None => PyInt 1 end) (PyInt 1))
  = Ok (if count_num c =? 0 then 1 else count_num c).
Proof.
  destruct c as [| |[|]|z]; try reflexivity.
  unfold py_or. cbn. destruct (z =? 0); reflexivity.
Qed.

Lemma max_one_or (n : Z) : Z.max 1 (if n =? 0 then 1 else n) = Z.max 1 n.
Proof. destruct (n =? 0) eqn:E; [apply Z.eqb_eq in E|]; lia. Qed.

Lemma prompt_text (p : option pystr) :
  (t <- py_str repr (py_or (text_arg p) (PyStr [])) ;; _count_tokens (PyStr t))
  = _count_tokens (text_arg p).
Proof. destruct p as [[|ch s]|]; reflexivity. Qed.



(** C4, as the code has it. For every prompt that is a string or [None]
    and every success count [n] that is left out, [None], a bool or an int,
    [total_tokens] is [_count_tokens(p) * max(1, n)], an absent count
    standing for 1, and [output_tokens] is 0. *)
Theorem build_image_usage_total (p : option pystr) (c : count_arg) :
  exists u k,
    build_image_usage repr int_other (text_arg p) (count_val c) = Ok u /\
    _count_tokens (text_arg p) = Ok k /\
    ImageUsage.total_tokens u = k * Z.max 1 (count_num c) /\
    ImageUsage.output_tokens u = 0.
Proof.
  assert (exists k, _count_tokens (text_arg p) = Ok k) as [k Hk].
  { destruct p as [s|]; [|now exists 0].
    cbn [text_arg]. rewrite count_tokens_str. eexists. reflexivity. }
  pose proof (prompt_text p) as Hp. rewrite Hk in Hp.
  unfold build_image_usage.
  destruct (py_str repr (py_or (text_arg p) (PyStr []))) as [t|e];
    [|discriminate Hp].
  cbn [bind] in Hp |- *. rewrite Hp, int_of_count. cbn [bind].
  eexists. exists k. split; [reflexivity|]. split; [exact Hk|].
  cbn [ImageUsage.total_tokens ImageUsage.output_tokens].
  rewrite max_one_or. split; reflexivity.
Qed.

End ImageUsage.


(** No report comes back for a count that is not a number, so none with
    the count clamped to 1. *)
Lemma build_image_usage_no_clamp :
  ~ exists u k,
      build_image_usage no_repr no_int_other
        (PyStr (lit "a cat")) (Some (PyStr (lit "two")))
      = Ok u /\
      _count_tokens (PyStr (lit "a cat")) = Ok k /\
      ImageUsage.total_tokens u = k * Z.max 1 1.
Proof. intros (u & k & H & _). discriminate H. Qed.

Example build_image_usage_list_count :
  build_image_usage no_repr no_int_other
    (PyStr (lit "a cat")) (Some (PyList [PyInt 2]))
  = Raise TypeError.
Proof. reflexivity. Qed.

Example build_image_usage_numeric_text :
  exists u,
    build_image_usage no_repr no_int_other
      (PyStr (lit "a cat")) (Some (PyStr (lit "3"))) = Ok u /\
    ImageUsage.total_tokens u = 6.
Proof. eexists. split; reflexivity. Qed.

Example build_image_usage_negative :
  exists u,
    build_image_usage no_repr no_int_other
      (PyStr (lit "a cat")) (Some (PyInt (-4))) = Ok u /\
    ImageUsage.total_tokens u = 2.
Proof. eexists. split; reflexivity. Qed.

(** False values other than a missing count are taken for 1 as well. *)
Example build_image_usage_empty_count :
  build_image_usage no_repr no_int_other (PyStr (lit "a cat")) (Some (PyStr []))
  = build_image_usage no_repr no_int_other (PyStr (lit "a cat")) (Some (PyInt 1)) /\
  build_image_usage no_repr no_int_other (PyStr (lit "a cat")) (Some (PyList []))
  = build_image_usage no_repr no_int_other (PyStr (lit "a cat")) (Some (PyInt 1)).
Proof. split; reflexivity. Qed.

(** A string of 4301 digits is more than [int] reads. *)
Example build_image_usage_long_count :
  build_image_usage no_repr no_int_other
    (PyStr (lit "a cat")) (Some (PyStr (repeat 0x31%N 4301)))
  = Raise ValueError.
Proof. vm_compute. reflexivity. Qed.

(** A prompt, or a message content, of blanks only is not counted, and a
    completion of markers only leaves nothing to count: neither is billed
    a token. *)
Lemma blank_prompt_billed_zero :
  exists u,
    build_chat_usage no_repr
      (PyList [PyDict [(lit "role", PyStr (lit "user"));
                       (lit "content", PyStr (lit "   "))]])
      (PyStr (lit "<think></think>")) = Ok u /\
    ChatUsage.prompt_tokens u = 0 /\
    ChatUsage.completion_tokens u = 0.
Proof. eexists. split; [reflexivity|]. split; reflexivity. Qed.

(** ** The inventory query *)

Section Paging.
Import Inventory.

Context {A : Type}.

Lemma ceil_pages (total n : Z) : 0 < n -> is_ceil ((total + n - 1) / n) total n.
Proof.
  intros Hn. unfold is_ceil.
  pose proof (Z.div_mod (total + n - 1) n ltac:(lia)) as E.
  pose proof (Z.mod_pos_bound (total + n - 1) n Hn) as B.
  nia.
Qed.

Lemma window_nth (l : list A) (lo k i : nat) :
  nth_error (firstn k (skipn lo l)) i =
  if (i <? k)%nat then nth_error l (lo + i) else None.
Proof. now rewrite nth_error_firstn, nth_error_skipn. Qed.

(** C8. With a number for [per_page], the query takes [page = 1] and
    [per_page = 30] when they are left out, clamps [page] to at least 1,
    sets [pages] to the ceiling of [total / per_page] and at least 1,
    returns the items from [(page-1)*per_page] up to [page*per_page], and
    for a page after the last returns no item, with [total] and [pages] the
    same as for every other page. *)
Theorem paginate_numeric (filtered : list A) (page : option Z) (n : Z) :
  0 < n ->
  let r := paginate filtered page (Some (PerPage n)) in
  let p := Z.max 1 (match page with Some p => p | None => 1 end) in
  (forall page', paginate filtered page' None
                 = paginate filtered page' (Some (PerPage 30))) /\
  (forall per_page', paginate filtered None per_page'
                     = paginate filtered (Some 1) per_page') /\
  total r = Z.of_nat (length filtered) /\
  Inventory.page r = p /\
  per_page r = PerPage n /\
  (exists q, is_ceil q (total r) n /\ pages r = Z.max 1 q) /\
  (forall i : nat,
      nth_error (items r) i =
      if Z.of_nat i <? n
      then nth_error filtered (Z.to_nat ((p - 1) * n) + i)
      else None) /\
  (pages r < p -> items r = []) /\
  (forall page',
      total (paginate filtered page' (Some (PerPage n))) = total r /\
      pages (paginate filtered page' (Some (PerPage n))) = pages r).
Proof.
  intros Hn. cbv zeta. unfold paginate, DEFAULT_PAGE, DEFAULT_PER_PAGE.
  cbn [items total Inventory.page per_page pages].
  set (p := Z.max 1 (match page with Some p => p | None => 1 end)).
  set (tot := Z.of_nat (length filtered)).
  split; [reflexivity|].
  split; [reflexivity|].
  split; [reflexivity|].
  split; [reflexivity|].
  split; [reflexivity|].
  split; [exists ((tot + n - 1) / n); split; [now apply ceil_pages|reflexivity]|].
  split; [|split].
  - intros i. rewrite window_nth.
    replace (p * n - (p - 1) * n) with n by lia.
    destruct (Z.of_nat i <? n) eqn:E.
    + apply Z.ltb_lt in E.
      replace (i <? Z.to_nat n)%nat with true; [reflexivity|].
      symmetry. apply Nat.ltb_lt. lia.
    + apply Z.ltb_ge in E.
      replace (i <? Z.to_nat n)%nat with false; [reflexivity|].
      symmetry. apply Nat.ltb_ge. lia.
  - intros Hlast.
    pose proof (ceil_pages tot n Hn) as [_ Hq].
    rewrite skipn_all2; [apply firstn_nil|].
    assert (tot <= (p - 1) * n) by nia.
    subst tot. lia.
  - intros page'. split; reflexivity.
Qed.

(** C9. With the sentinel for [per_page] nothing is cut: every filtered
    record is an item, [pages] is 1, and the result's [per_page] is the
    sentinel again. *)
Theorem paginate_all (filtered : list A) (page : option Z) :
  let r := paginate filtered page (Some All) in
  items r = filtered /\
  pages r = 1 /\
  per_page r = All /\
  total r = Z.of_nat (length filtered).
Proof. cbv zeta. repeat split; reflexivity. Qed.

End Paging.

(** Forty records and nothing else given: the first thirty, on two pages. *)
Lemma paginate_numeric_witness :
  Inventory.total (Inventory.paginate (seq 0 40) None None) = 40 /\
  Inventory.page (Inventory.paginate (seq 0 40) None None) = 1 /\
  Inventory.per_page (Inventory.paginate (seq 0 40) None None) = Inventory.PerPage 30 /\
  Inventory.pages (Inventory.paginate (seq 0 40) None None) = 2 /\
  Inventory.items (Inventory.paginate (seq 0 40) None None) = seq 0 30 /\
  Inventory.items (Inventory.paginate (seq 0 40) (Some 99) None) = [].
Proof.
  destruct (paginate_numeric (seq 0 40) None 30 ltac:(lia))
    as (_ & _ & Htotal & Hpage & Hper & (q & Hq & Hpages) & _ & _ & _).
  destruct (paginate_numeric (seq 0 40) (Some 99) 30 ltac:(lia))
    as (_ & _ & _ & _ & _ & _ & _ & Hlast & _).
  split; [exact Htotal|].
  split; [exact Hpage|].
  split; [exact Hper|].
  split.
  - transitivity (Z.max 1 q); [exact Hpages|].
    change (Inventory.total _) with 40 in Hq. unfold is_ceil in Hq. lia.
  - split; [reflexivity|].
    apply Hlast. reflexivity.
Defined.

Example paginate_sentinel_120 :
  let r := Inventory.paginate (seq 0 120) (Some 1) (Some Inventory.All) in
  Inventory.total r = 120 /\ Inventory.per_page r = Inventory.All /\
  Inventory.pages r = 1 /\ length (Inventory.items r) = 120%nat.
Proof. repeat split; reflexivity. Qed.

(* ================================================================== *)
(** * Further properties of the module *)
(* ================================================================== *)

(** ** What [estimate_prompt_tokens] counts *)

Lemma collect_skip {A : Type} (f : A -> result (list pystr))
    (l1 l2 : list A) (x : A) :
  f x = Ok [] -> collect f (l1 ++ x :: l2) = collect f (l1 ++ l2).
Proof.
  intros Hx. rewrite !collect_app. cbn [collect]. rewrite Hx. cbn [bind app].
  now rewrite bind_ret.
Qed.

Lemma collect_same {A : Type} (f : A -> result (list pystr))
    (l1 l2 : list A) (x y : A) :
  f x = f y -> collect f (l1 ++ x :: l2) = collect f (l1 ++ y :: l2).
Proof. intros Hxy. rewrite !collect_app. cbn [collect]. now rewrite Hxy. Qed.

(** When the only exception is [ValueError], collecting over a permuted
    list raises as well, or gives a permuted result. *)
Lemma collect_perm {A : Type} (f : A -> result (list pystr)) (l l' : list A) :
  (forall x e, f x = Raise e -> e = ValueError) ->
  Permutation l l' ->
  match collect f l, collect f l' with
  | Ok a, Ok b => Permutation a b
  | Raise e, Raise e' => e = e'
  | _, _ => False
  end.
Proof.
  intros Hf. induction 1 as [|x l l' _ IH|x y l|l l' l'' _ IH1 _ IH2].
  - constructor.
  - cbn [collect]. destruct (f x) as [a|e]; cbn [bind]; [|reflexivity].
    destruct (collect f l) as [b|e], (collect f l') as [b'|e'];
      cbn [bind]; try contradiction; [|exact IH].
    now apply Permutation_app_head.
  - cbn [collect].
    destruct (f x) as [a|e] eqn:Ex, (f y) as [b|e'] eqn:Ey; cbn [bind];
      try reflexivity.
    + destruct (collect f l) as [c|e'']; cbn [bind]; [|reflexivity].
      rewrite !app_assoc. apply Permutation_app_tail, Permutation_app_comm.
    + now rewrite (Hf _ _ Ex), (Hf _ _ Ey).
  - destruct (collect f l) as [a|e], (collect f l') as [b|e'],
      (collect f l'') as [c|e'']; try contradiction.
    + now transitivity b.
    + congruence.
Qed.

Section PromptEstimates.

Variable repr : pyval -> pystr.

Lemma estimate_prompt_tokens_list (l : list pydict) :
  estimate_prompt_tokens repr (PyList (map PyDict l))
  = (frags <- fragments repr l ;;
     Ok {| Prompt.text_tokens := estimate (join NEWLINE frags);
           Prompt.image_tokens := 0;
           Prompt.prompt_tokens := estimate (join NEWLINE frags) + 0 |}).
Proof. exact (estimate_prompt_tokens_typed repr (Some l)). Qed.

Lemma text_of_raise (v : pyval) (e : exn) :
  text_of repr v = Raise e -> e = ValueError.
Proof.
  unfold text_of. destruct (py_str repr _) as [t|e'] eqn:E; [discriminate|].
  cbn [bind]. intros H. injection H as <-. now apply py_str_raise in E.
Qed.

Lemma part_texts_raise (item : pyval) (e : exn) :
  part_texts repr item = Raise e -> e = ValueError.
Proof.
  unfold part_texts. destruct item; try discriminate.
  destruct (eq_str _ _); [apply text_of_raise | discriminate].
Qed.

Lemma message_texts_raise (msg : pydict) (e : exn) :
  message_texts repr msg = Raise e -> e = ValueError.
Proof.
  unfold message_texts.
  destruct (dict_get msg (lit "content")); try apply text_of_raise.
  apply collect_raise. apply part_texts_raise.
Qed.

Lemma message_texts_falsy (m : pydict) :
  truthy (dict_get m (lit "content")) = false ->
  message_texts repr m = Ok [].
Proof.
  unfold message_texts, text_of. intros Hf.
  destruct (dict_get m (lit "content")) as [|b|z|s|l|d] eqn:E;
    try (unfold py_or; rewrite Hf; reflexivity).
  destruct l; [reflexivity|discriminate].
Qed.

Lemma lstrip_blank (s : pystr) : forallb isspace s = true -> lstrip s = [].
Proof.
  induction s as [|ch s IH]; [reflexivity|].
  cbn [forallb lstrip]. intros H. apply andb_prop in H as [-> H]. now apply IH.
Qed.

Lemma message_texts_blank (m : pydict) (s : pystr) :
  dict_get m (lit "content") = PyStr s ->
  forallb isspace s = true ->
  message_texts repr m = Ok [].
Proof.
  unfold message_texts, text_of. intros -> Hs.
  rewrite py_or_str, py_str_string. cbn [bind]. unfold kept, strip.
  now rewrite (lstrip_blank s Hs).
Qed.

Lemma part_texts_other (item : pyval) :
  is_text_part item = false -> part_texts repr item = Ok [].
Proof.
  unfold is_text_part, part_texts. intros H.
  destruct item; try reflexivity. now rewrite H.
Qed.

Lemma join_counts_perm (l l' : list pystr) :
  Permutation l l' -> estimate (join NEWLINE l) = estimate (join NEWLINE l').
Proof.
  intros H. apply estimate_counts.
  - rewrite !ascii_count_join.
    now rewrite (sum_of_perm _ _ _ H), (Permutation_length H).
  - rewrite !non_ascii_count_join. apply sum_of_perm, H.
Qed.

Lemma join_counts_insert (l1 l l2 : list pystr) :
  estimate (join NEWLINE (l1 ++ l2)) <= estimate (join NEWLINE (l1 ++ l ++ l2)).
Proof.
  apply estimate_mono.
  - rewrite !ascii_count_join, !sum_of_app, !length_app.
    pose proof (sum_of_nonneg ascii_count l ascii_count_nonneg). lia.
  - rewrite !non_ascii_count_join, !sum_of_app.
    pose proof (sum_of_nonneg non_ascii_count l non_ascii_count_nonneg). lia.
Qed.

(** X10. A message with no [content] key, with a content that is [None],
    empty or otherwise false, or with a content string of white space only,
    adds nothing to the estimate. *)
Theorem estimate_prompt_tokens_skips_empty (msgs1 msgs2 : list pydict)
    (m : pydict) :
  truthy (dict_get m (lit "content")) = false \/
  (exists s, dict_get m (lit "content") = PyStr s /\ forallb isspace s = true) ->
  estimate_prompt_tokens repr (PyList (map PyDict (msgs1 ++ m :: msgs2)))
  = estimate_prompt_tokens repr (PyList (map PyDict (msgs1 ++ msgs2))).
Proof.
  intros Hm.
  assert (message_texts repr m = Ok []) as E.
  { destruct Hm as [Hf | (s & Hs & Hb)].
    - now apply message_texts_falsy.
    - now apply message_texts_blank with (s := s). }
  rewrite !estimate_prompt_tokens_list. unfold fragments.
  now rewrite (collect_skip _ msgs1 msgs2 m E).
Qed.

(** X11. In a structured content, a part that is not a dict tagged
    [type == "text"] (an image part, say) adds nothing to the estimate. *)
Theorem estimate_prompt_tokens_skips_parts (msgs1 msgs2 : list pydict)
    (rest : pydict) (items1 items2 : list pyval) (item : pyval) :
  is_text_part item = false ->
  estimate_prompt_tokens repr
    (PyList (map PyDict
       (msgs1 ++ ((lit "content", PyList (items1 ++ item :: items2)) :: rest)
              :: msgs2)))
  = estimate_prompt_tokens repr
      (PyList (map PyDict
         (msgs1 ++ ((lit "content", PyList (items1 ++ items2)) :: rest)
                :: msgs2))).
Proof.
  intros Hi. rewrite !estimate_prompt_tokens_list. unfold fragments.
  match goal with
  | |- bind ?a _ = bind ?b _ => assert (a = b) as Hc; [|now rewrite Hc]
  end.
  apply collect_same.
  change (collect (part_texts repr) (items1 ++ item :: items2)
          = collect (part_texts repr) (items1 ++ items2)).
  apply collect_skip. now apply part_texts_other.
Qed.

(** X12. The estimate does not depend on the order of the messages. *)
Theorem estimate_prompt_tokens_perm (l l' : list pydict) :
  Permutation l l' ->
  estimate_prompt_tokens repr (PyList (map PyDict l))
  = estimate_prompt_tokens repr (PyList (map PyDict l')).
Proof.
  intros H. rewrite !estimate_prompt_tokens_list. unfold fragments.
  pose proof (collect_perm (message_texts repr) l l' message_texts_raise H) as Hp.
  destruct (collect (message_texts repr) l) as [a|e],
    (collect (message_texts repr) l') as [b|e']; try contradiction.
  - cbn [bind]. now rewrite (join_counts_perm _ _ Hp).
  - cbn [bind]. now rewrite Hp.
Qed.

(** X13. Taking a message out of a list for which the estimate returns
    leaves a list for which it returns, with no more [prompt_tokens]. *)
Theorem estimate_prompt_tokens_grows (msgs1 msgs2 : list pydict) (m : pydict)
    (r' : Prompt.t) :
  estimate_prompt_tokens repr (PyList (map PyDict (msgs1 ++ m :: msgs2))) = Ok r' ->
  exists r,
    estimate_prompt_tokens repr (PyList (map PyDict (msgs1 ++ msgs2))) = Ok r /\
    Prompt.prompt_tokens r <= Prompt.prompt_tokens r'.
Proof.
  rewrite !estimate_prompt_tokens_list. unfold fragments.
  rewrite !collect_app. cbn [collect]. intros H.
  apply bind_ok in H as (frags & Hf & H). injection H as <-.
  apply bind_ok in Hf as (a & -> & Hf).
  apply bind_ok in Hf as (bc & Hbc & Hf). injection Hf as <-.
  apply bind_ok in Hbc as (b & _ & Hbc).
  apply bind_ok in Hbc as (c & -> & Hbc). injection Hbc as <-.
  cbn [bind]. eexists. split; [reflexivity|].
  cbn [Prompt.prompt_tokens].
  pose proof (join_counts_insert a b c). lia.
Qed.



End PromptEstimates.

Lemma estimate_prompt_tokens_skips_empty_witness :
  estimate_prompt_tokens no_repr
    (PyList [PyDict [(lit "role", PyStr (lit "system"))];
             PyDict [(lit "content", PyStr (lit "hi"))]])
  = estimate_prompt_tokens no_repr
      (PyList [PyDict [(lit "content", PyStr (lit "hi"))]]).
Proof.
  apply (estimate_prompt_tokens_skips_empty no_repr []
           [[(lit "content", PyStr (lit "hi"))]]
           [(lit "role", PyStr (lit "system"))]).
  left. reflexivity.
Defined.

Lemma estimate_prompt_tokens_skips_parts_witness :
  estimate_prompt_tokens no_repr
    (PyList [PyDict [(lit "content",
       PyList [PyDict [(lit "type", PyStr (lit "text")); (lit "text", PyStr (lit "look"))];
               PyDict [(lit "type", PyStr (lit "image_url"));
                       (lit "image_url", PyStr (lit "http://x/y.png"))]])]])
  = estimate_prompt_tokens no_repr
      (PyList [PyDict [(lit "content",
         PyList [PyDict [(lit "type", PyStr (lit "text")); (lit "text", PyStr (lit "look"))]])]]).
Proof.
  apply (estimate_prompt_tokens_skips_parts no_repr [] [] []
           [PyDict [(lit "type", PyStr (lit "text")); (lit "text", PyStr (lit "look"))]]
           []
           (PyDict [(lit "type", PyStr (lit "image_url"));
                    (lit "image_url", PyStr (lit "http://x/y.png"))])).
  reflexivity.
Defined.

Lemma estimate_prompt_tokens_perm_witness :
  estimate_prompt_tokens no_repr
    (PyList [PyDict [(lit "content", PyStr (lit "first"))];
             PyDict [(lit "content", PyStr (lit "second one"))]])
  = estimate_prompt_tokens no_repr
      (PyList [PyDict [(lit "content", PyStr (lit "second one"))];
               PyDict [(lit "content", PyStr (lit "first"))]]).
Proof.
  apply (estimate_prompt_tokens_perm no_repr
           [[(lit "content", PyStr (lit "first"))];
            [(lit "content", PyStr (lit "second one"))]]
           [[(lit "content", PyStr (lit "second one"))];
            [(lit "content", PyStr (lit "first"))]]).
  apply perm_swap.
Defined.

Lemma estimate_prompt_tokens_grows_witness :
  exists r,
    estimate_prompt_tokens no_repr
      (PyList [PyDict [(lit "content", PyStr (lit "first"))]]) = Ok r /\
    Prompt.prompt_tokens r <= 5.
Proof.
  apply (estimate_prompt_tokens_grows no_repr
           [[(lit "content", PyStr (lit "first"))]] []
           [(lit "content", PyStr (lit "second message"))]
           {| Prompt.text_tokens := 5; Prompt.image_tokens := 0;
              Prompt.prompt_tokens := 5 |}).
  reflexivity.
Defined.

(** ** The success count of [build_image_usage] *)

Section ImageCounts.

Variable repr : pyval -> pystr.
Variable int_other : pystr -> option Z.



(** X16. When [int] reads a string as the number [z], that string as
    success count gives what the int [z] gives. *)
Theorem build_image_usage_numeric_string (prompt : pyval) (s : pystr) (z : Z) :
  int_of_str int_other s = Some z ->
  build_image_usage repr int_other prompt (Some (PyStr s))
  = build_image_usage repr int_other prompt (Some (PyInt z)).
Proof.
  intros Hs. unfold build_image_usage.
  destruct (py_str repr _) as [t|e]; [|reflexivity]. cbn [bind].
  rewrite count_tokens_estimate. cbn [bind].
  destruct s as [|ch s]; [discriminate|].
  replace (py_or (PyStr (ch :: s)) (PyInt 1)) with (PyStr (ch :: s))
    by reflexivity.
  replace (py_or (PyInt z) (PyInt 1)) with (PyInt (if z =? 0 then 1 else z))
    by (unfold py_or; cbn [truthy]; now destruct (z =? 0)).
  cbn [py_int]. rewrite Hs. cbn [bind].
  destruct (z =? 0) eqn:Ez; [|reflexivity].
  apply Z.eqb_eq in Ez. subst z. reflexivity.
Qed.

End ImageCounts.

Lemma build_image_usage_numeric_string_witness :
  build_image_usage no_repr no_int_other
    (PyStr (lit "a red fox")) (Some (PyStr (lit " 12 ")))
  = build_image_usage no_repr no_int_other
      (PyStr (lit "a red fox")) (Some (PyInt 12)).
Proof.
  apply (build_image_usage_numeric_string no_repr no_int_other
           (PyStr (lit "a red fox")) (lit " 12 ") 12).
  reflexivity.
Defined.
